(** * Clubspot backend: a shallow embedding of [src/backend/server.js]

    The Express handlers of the server are embedded as functions on an
    explicit database state.  A MongoDB collection is a finite map from the
    document [_id] to the document; a handler takes the values the runtime
    supplies to it (the clock, a freshly generated ObjectId, a bcrypt salt),
    the request and the database, and returns the database after the request
    together with the response that was sent.  Requests are handled one at a
    time: the interleaving of concurrent requests is not modelled.

    The routes that change the database or issue and check tokens are
    embedded, and the two GET routes that read the caller's groups. A
    document is the fields its schema declares: the version key [__v] that
    mongoose keeps on each document is not a schema path and is not
    modelled.

    The libraries the server calls (jsonwebtoken, bcrypt, the ObjectId and
    Date casts of mongoose) are not part of the repository; they are the
    fields of the class [Platform], and every general theorem holds for every
    platform.  The module [Demo] gives one platform on which the scenarios
    are evaluated. *)

From stdpp Require Import gmap strings list fin_maps pretty.
From Stdlib Require Import Ascii ZArith.

Module Clubspot.

(** ** Values *)

(** An ObjectId is represented by the string [toString()] prints for it (24
    lower-case hexadecimal digits), so that [toString] is the identity and
    two ObjectIds are equal exactly when their strings are. *)
Abbreviation ObjectId := string.

(** JavaScript truthiness of a JSON field that is either absent or a string:
    [undefined] and the empty string are falsy. *)
Definition truthy (v : option string) : bool :=
  match v with
  | Some s => negb (bool_decide (s = ""))
  | None => false
  end.

(** Truthiness of a field that is either absent or a boolean. *)
Definition truthyb (v : option bool) : bool :=
  match v with
  | Some b => b
  | None => false
  end.

(** [array.includes(id)] on a mongoose array of ObjectIds: mongoose compares
    the elements with the given id string. *)
Definition includes (id : ObjectId) (l : list ObjectId) : bool :=
  bool_decide (id ∈ l).

(** ** Schemas (lines 37-75) *)

Module User.
Record t := mk {
  displayName : string;
  username : string;
  password : string;
  groups : list ObjectId;
  board_groups : list ObjectId;
  site_admin : bool
}.
Definition set_groups (l : list ObjectId) (u : t) : t :=
  mk (displayName u) (username u) (password u) l (board_groups u) (site_admin u).
Definition set_board_groups (l : list ObjectId) (u : t) : t :=
  mk (displayName u) (username u) (password u) (groups u) l (site_admin u).
End User.

Module Group.
Record t := mk {
  name : string;
  description : string;
  photoUrl : option string;
  posts : list ObjectId;
  members : list ObjectId;
  admins : list ObjectId
}.
Definition set_posts (l : list ObjectId) (g : t) : t :=
  mk (name g) (description g) (photoUrl g) l (members g) (admins g).
Definition set_members (l : list ObjectId) (g : t) : t :=
  mk (name g) (description g) (photoUrl g) (posts g) l (admins g).
End Group.

Module Post.
Record t := mk {
  name : string;
  description : option string;
  group : ObjectId;
  isEvent : bool;
  date : option Z;
  location : option string;
  photoUrl : option string;
  username : string;
  creationDate : Z
}.
End Post.

(** The three collections. *)
Record DB := mkDB {
  db_users : gmap ObjectId User.t;
  db_groups : gmap ObjectId Group.t;
  db_posts : gmap ObjectId Post.t
}.

Definition empty_db : DB := mkDB ∅ ∅ ∅.

Definition with_users (us : gmap ObjectId User.t) (db : DB) : DB :=
  mkDB us (db_groups db) (db_posts db).
Definition with_groups (gs : gmap ObjectId Group.t) (db : DB) : DB :=
  mkDB (db_users db) gs (db_posts db).
Definition with_posts (ps : gmap ObjectId Post.t) (db : DB) : DB :=
  mkDB (db_users db) (db_groups db) ps.

(** ** Tokens *)

(** The payload of a session token: the three fields [jwt.sign] is given at
    login, and the [iat] and [exp] claims (in seconds) it adds. *)
Module Claims.
Record t := mk {
  id : ObjectId;
  username : string;
  displayName : string;
  iat : Z;
  exp : Z
}.
End Claims.

(** The value of the [authToken] cookie: either a string that does not parse
    as a token, or a payload with a signature. *)
Inductive Jwt :=
| JwtMalformed (raw : string)
| JwtSigned (payload : Claims.t) (signature : string).

(** ** The libraries the server calls *)

Class Platform := {
  (** [process.env.JWT_SECRET] and [process.env.NODE_ENV] *)
  JWT_SECRET : option string;
  NODE_ENV : option string;
  (** the HS256 signature jsonwebtoken computes for a payload under a secret *)
  hmac : string → Claims.t → string;
  (** [bcrypt.hash(password, 10)] with the salt it drew, and [bcrypt.compare] *)
  bcrypt_hash : string → string → string;
  bcrypt_compare : string → string → bool;
  (** a bcrypt hash is never the empty string *)
  bcrypt_hash_nonempty : ∀ salt pw, bcrypt_hash salt pw ≠ "";
  (** mongoose's cast of a string to an ObjectId and to a Date
      ([None]: CastError) *)
  castObjectId : string → option string;
  castDate : string → option Z
}.

(** ** Requests and responses *)

(** [req.body]: the JSON fields the handlers destructure, absent ([None]) or
    of the type the schemas give them. *)
Module Body.
Record t := mk {
  username : option string;
  displayName : option string;
  password : option string;
  name : option string;
  postName : option string;
  description : option string;
  group : option string;
  groupId : option string;
  isEvent : option bool;
  date : option string;
  location : option string;
  photoUrl : option string
}.
Definition empty : t :=
  mk None None None None None None None None None None None None.
End Body.

Record Request := mkRequest {
  authToken : option Jwt;   (* req.cookies.authToken *)
  body : Body.t
}.

(** What [res.send] was given. *)
Inductive Sent :=
| Message (message : string)
| MessagePost (message : string) (_id : ObjectId) (post : Post.t)
| MessageGroup (message : string) (_id : ObjectId) (group : Group.t)
| MessageDisplayName (message : string) (displayName : string)
| Identity (id : ObjectId) (username displayName : string).

(** The cookie [res.cookie("authToken", token, {...})] sets. *)
Record SetCookie := mkSetCookie {
  cookie_value : Jwt;
  cookie_httpOnly : bool;
  cookie_secure : bool;
  cookie_maxAge : Z
}.

Record Response := mkResponse {
  status : nat;
  sent : Sent;
  cookie : option SetCookie
}.

Definition reply (code : nat) (message : string) : Response :=
  mkResponse code (Message message) None.

(** ** Outcomes of queries and saves *)

(** The outcome of [Model.findById(id)]: the cast of [id] to an ObjectId
    throws, or no document has that [_id], or the document is returned.
    [findById(undefined)] finds nothing. *)
Inductive Found (A : Type) :=
| Throws
| Null
| Document (_id : ObjectId) (doc : A).
Arguments Throws {A}.
Arguments Null {A}.
Arguments Document {A} _id doc.

(** Why a [save()] of a new document is rejected: the schema validation
    fails, or MongoDB reports a duplicate key (error code 11000). *)
Inductive SaveError :=
| ValidationError
| DuplicateKey.

(** ** JSON values *)

(** A JSON value as the second POST /api/posts handler tests it: [JOther]
    is any value that is not listed (a number with a fractional part, an
    array, an object). *)
Inductive Json :=
| JNull
| JBool (b : bool)
| JNumber (z : Z)
| JString (s : string)
| JOther.

(** JavaScript truthiness of a field of [req.body]: an absent field,
    [null], [false], [0] and the empty string are falsy, everything else is
    truthy. *)
Definition js_truthy (v : option Json) : bool :=
  match v with
  | None => false
  | Some JNull => false
  | Some (JBool b) => b
  | Some (JNumber z) => negb (bool_decide (z = 0%Z))
  | Some (JString s) => negb (bool_decide (s = ""))
  | Some JOther => true
  end.

(** [req.body] of the second POST /api/posts handler: each field absent or
    any JSON value. *)
Module LegacyBody.
Record t := mk {
  name : option Json;
  description : option Json;
  group : option Json;
  isEvent : option Json;
  date : option Json;
  location : option Json;
  photoUrl : option Json;
  username : option Json
}.
End LegacyBody.

(** mongoose's casts of a JSON value to the type of a schema path. The
    outer [None] is a CastError; the inner [None] is a cast to [null], which
    leaves the path without a value. *)
Class SchemaCast := {
  castStringJ : Json → option (option string);
  castBooleanJ : Json → option (option bool);
  castObjectIdJ : Json → option (option string);
  castDateJ : Json → option (option Z)
}.

Section Server.
Context `{Platform}.

(** ** jsonwebtoken *)

(** A secret that is [undefined] or empty makes [sign] and [verify] throw. *)
Definition usable_secret : option string :=
  match JWT_SECRET with
  | Some s => if bool_decide (s = "") then None else Some s
  | None => None
  end.

(** [jwt.sign({id, username, displayName}, JWT_SECRET, {expiresIn: "1d"})]
    at clock [now] (milliseconds): [iat] is the clock in seconds and [exp] is
    [iat] plus one day. [None] when it throws. *)
Definition jwt_sign (now : Z) (id : ObjectId) (username displayName : string)
  : option Jwt :=
  match usable_secret with
  | None => None
  | Some secret =>
      let iat := (now `div` 1000)%Z in
      let payload := Claims.mk id username displayName iat (iat + 86400)%Z in
      Some (JwtSigned payload (hmac secret payload))
  end.

(** [jwt.verify(token, JWT_SECRET)] at clock [now]: the decoded payload, or
    [None] when it throws (malformed token, no secret, wrong signature,
    expired). *)
Definition jwt_verify (now : Z) (token : Jwt) : option Claims.t :=
  match token with
  | JwtMalformed _ => None
  | JwtSigned payload signature =>
      match usable_secret with
      | None => None
      | Some secret =>
          if negb (bool_decide (signature = hmac secret payload)) then None
          else if bool_decide (Claims.exp payload ≤ now `div` 1000)%Z then None
          else Some payload
      end
  end.

(** [!token] for the cookie value: absent or the empty string. *)
Definition no_token (c : option Jwt) : bool :=
  match c with
  | None => true
  | Some (JwtMalformed raw) => bool_decide (raw = "")
  | Some (JwtSigned _ _) => false
  end.

(** ** The [authenticate] middleware (lines 81-95) *)

Definition authenticate (now : Z) (req : Request) : Response + Claims.t :=
  if no_token (authToken req) then inl (reply 401 "Unauthorized.")
  else match authToken req ≫= jwt_verify now with
       | Some decoded => inr decoded
       | None => inl (reply 401 "Invalid token.")
       end.

(** A route registered as [app.post(path, authenticate, handler)]. *)
Definition authenticated (now : Z)
    (handler : Claims.t → Request → DB → DB * Response)
    (req : Request) (db : DB) : DB * Response :=
  match authenticate now req with
  | inl res => (db, res)
  | inr user => handler user req db
  end.

(** ** mongoose queries and saves *)

Definition findById {A : Type} (coll : gmap ObjectId A) (id : option string)
  : Found A :=
  match id with
  | None => Null
  | Some s =>
      match castObjectId s with
      | None => Throws
      | Some oid =>
          match coll !! oid with
          | Some doc => Document oid doc
          | None => Null
          end
      end
  end.

(** [User.findById(userId)] with the id of the token: it is the string
    login wrote from [user._id], and casts back to that ObjectId. *)
Definition User_findById (userId : ObjectId) (db : DB) : option User.t :=
  db_users db !! userId.

(** [User.findOne({ username })]: a user document with that username. A
    request without a username queries for [null], which no stored user has
    ([username] is required). *)
Definition User_findOne (username : option string) (coll : gmap ObjectId User.t)
  : option (ObjectId * User.t) :=
  match username with
  | None => None
  | Some s =>
      snd <$> list_find (λ kv : string * User.t, User.username kv.2 = s)
                        (map_to_list coll)
  end.

(** The unique index on [username]: some stored user has this username. *)
Definition username_taken (s : string) (coll : gmap ObjectId User.t) : bool :=
  bool_decide (Exists (λ kv : string * User.t, User.username kv.2 = s)
                      (map_to_list coll)).

(** A [required: true] string path: present and not empty. *)
Definition required (v : option string) : option string :=
  match v with
  | Some s => if bool_decide (s = "") then None else Some s
  | None => None
  end.

(** A [Date] path: absent and the empty string give no date, any other
    string is cast. The outer [None] is a CastError. *)
Definition cast_date_path (v : option string) : option (option Z) :=
  match v with
  | None => Some None
  | Some s => if bool_decide (s = "") then Some None else Some <$> castDate s
  end.

(** [new User({...})] validated against [userSchema]. *)
Definition new_User (username displayName password : option string)
  : option User.t :=
  u ← required username;
  d ← required displayName;
  p ← required password;
  Some (User.mk d u p [] [] false).

(** [new Group({...})] validated against [groupSchema]. *)
Definition new_Group (name description photoUrl : option string)
    (members admins : list ObjectId) : option Group.t :=
  n ← required name;
  d ← required description;
  Some (Group.mk n d photoUrl [] members admins).

(** [new Post({...})] validated against [postSchema]; [creationDate]
    defaults to the clock. *)
Definition new_Post (now : Z) (name description group : option string)
    (isEvent : option bool) (date location photoUrl username : option string)
  : option Post.t :=
  n ← required name;
  g ← group ≫= castObjectId;
  e ← isEvent;
  d ← cast_date_path date;
  u ← required username;
  Some (Post.mk n description g e d location photoUrl u now).

(** [newUser.save()]: inserts under a new [_id] unless the [_id] or the
    username is already there. *)
Definition save_new_User (oid : ObjectId) (doc : option User.t) (db : DB)
  : SaveError + DB :=
  match doc with
  | None => inl ValidationError
  | Some u =>
      if bool_decide (is_Some (db_users db !! oid))
         || username_taken (User.username u) (db_users db)
      then inl DuplicateKey
      else inr (with_users (<[oid := u]> (db_users db)) db)
  end.

Definition save_new_Group (oid : ObjectId) (doc : option Group.t) (db : DB)
  : SaveError + DB :=
  match doc with
  | None => inl ValidationError
  | Some g =>
      if bool_decide (is_Some (db_groups db !! oid)) then inl DuplicateKey
      else inr (with_groups (<[oid := g]> (db_groups db)) db)
  end.

Definition save_new_Post (oid : ObjectId) (doc : option Post.t) (db : DB)
  : SaveError + DB :=
  match doc with
  | None => inl ValidationError
  | Some p =>
      if bool_decide (is_Some (db_posts db !! oid)) then inl DuplicateKey
      else inr (with_posts (<[oid := p]> (db_posts db)) db)
  end.

(** [doc.save()] of a document that was read from the collection. *)
Definition save_Group (_id : ObjectId) (g : Group.t) (db : DB) : DB :=
  with_groups (<[_id := g]> (db_groups db)) db.
Definition save_User (_id : ObjectId) (u : User.t) (db : DB) : DB :=
  with_users (<[_id := u]> (db_users db)) db.

(** ** POST /api/posts, authenticated (lines 117-163) *)

Definition create_post (now : Z) (oid : ObjectId)
    (user : Claims.t) (req : Request) (db : DB) : DB * Response :=
  let b := body req in
  if negb (truthy (Body.group b)) || negb (truthy (Body.postName b))
     || (truthyb (Body.isEvent b)
         && (negb (truthy (Body.date b)) || negb (truthy (Body.location b))))
  then (db, reply 400 "Required fields are missing.")
  else
    match findById (db_groups db) (Body.group b) with
    | Throws => (db, reply 500 "Error creating post.")
    | Null => (db, reply 404 "Group not found.")
    | Document gid selectedGroup =>
        let userId := Claims.id user in
        let isAdmin := includes userId (Group.admins selectedGroup) in
        if negb isAdmin
        then (db, reply 403 "You must be an admin to post in this group.")
        else
          let newPost :=
            new_Post now (Body.postName b) (Body.description b) (Body.group b)
              (Body.isEvent b) (Body.date b) (Body.location b)
              (Body.photoUrl b) (Some (Claims.username user)) in
          match newPost, save_new_Post oid newPost db with
          | Some post, inr db1 =>
              let selectedGroup' :=
                Group.set_posts (Group.posts selectedGroup ++ [oid])
                                selectedGroup in
              (save_Group gid selectedGroup' db1,
               mkResponse 201
                 (MessagePost "Post created successfully." oid post) None)
          | _, _ => (db, reply 500 "Error creating post.")
          end
    end.

(** ** POST /api/auth/register (lines 167-195) *)

Definition register (salt : string) (oid : ObjectId)
    (req : Request) (db : DB) : DB * Response :=
  let b := body req in
  if negb (truthy (Body.username b)) || negb (truthy (Body.displayName b))
     || negb (truthy (Body.password b))
  then (db, reply 400 "All fields are required.")
  else
    let hashedPassword := bcrypt_hash salt (default "" (Body.password b)) in
    let newUser :=
      new_User (Body.username b) (Body.displayName b) (Some hashedPassword) in
    match save_new_User oid newUser db with
    | inr db1 => (db1, reply 201 "User registered successfully.")
    | inl DuplicateKey => (db, reply 400 "Username already exists.")
    | inl ValidationError => (db, reply 500 "Error registering user.")
    end.

(** ** POST /api/auth/login (lines 198-219) *)

Definition login (now : Z) (req : Request) (db : DB) : Response :=
  let b := body req in
  match User_findOne (Body.username b) (db_users db) with
  | None => reply 404 "User not found."
  | Some (uid, user) =>
      match Body.password b with
      | None => reply 500 "Error logging in."
      | Some password =>
          let isMatch := bcrypt_compare password (User.password user) in
          if negb isMatch then reply 401 "Invalid credentials."
          else
            match jwt_sign now uid (User.username user)
                           (User.displayName user) with
            | None => reply 500 "Error logging in."
            | Some token =>
                mkResponse 200
                  (MessageDisplayName "Login successful."
                                      (User.displayName user))
                  (Some (mkSetCookie token true
                           (bool_decide (NODE_ENV = Some "production"))
                           86400000))
            end
      end
  end.

(** ** POST /api/auth/verify (lines 223-243) *)

Definition verify (now : Z) (req : Request) : Response :=
  if no_token (authToken req)
  then reply 401 "Unauthorized: No token provided."
  else
    match authToken req ≫= jwt_verify now with
    | Some decoded =>
        mkResponse 200
          (Identity (Claims.id decoded) (Claims.username decoded)
                    (Claims.displayName decoded)) None
    | None => reply 401 "Invalid token."
    end.

(** ** POST /api/posts, second registration, no authentication
    (lines 258-282) *)

Context `{SchemaCast}.

(** The value a schema path takes from a field of the body: an absent
    field leaves the path without a value, a present one is cast. *)
Definition cast_path {A : Type} (cast : Json → option (option A))
    (v : option Json) : option (option A) :=
  match v with
  | None => Some None
  | Some j => cast j
  end.

(** [new Post({...})] with the fields of the body as they came, validated
    against [postSchema]: every path is cast, and [name], [group],
    [isEvent] and [username] must have a value ([name] and [username] a
    non-empty one). *)
Definition new_Post_legacy (now : Z) (b : LegacyBody.t) : option Post.t :=
  n ← cast_path castStringJ (LegacyBody.name b);
  ds ← cast_path castStringJ (LegacyBody.description b);
  g ← cast_path castObjectIdJ (LegacyBody.group b);
  e ← cast_path castBooleanJ (LegacyBody.isEvent b);
  d ← cast_path castDateJ (LegacyBody.date b);
  l ← cast_path castStringJ (LegacyBody.location b);
  p ← cast_path castStringJ (LegacyBody.photoUrl b);
  u ← cast_path castStringJ (LegacyBody.username b);
  n' ← required n;
  g' ← g;
  e' ← e;
  u' ← required u;
  Some (Post.mk n' ds g' e' d l p u' now).

Definition create_post_legacy (now : Z) (oid : ObjectId)
    (b : LegacyBody.t) (db : DB) : DB * Response :=
  if negb (js_truthy (LegacyBody.name b))
     || negb (js_truthy (LegacyBody.group b))
     || negb (js_truthy (LegacyBody.isEvent b))
     || negb (js_truthy (LegacyBody.username b))
  then (db, reply 400 "Name, group, and event status are required.")
  else
    let newPost := new_Post_legacy now b in
    match newPost, save_new_Post oid newPost db with
    | Some post, inr db1 =>
        (db1, mkResponse 201
                (MessagePost "Post created successfully." oid post) None)
    | _, _ => (db, reply 500 "Error creating post.")
    end.

(** ** POST /api/groups/leave (lines 286-320) *)

Definition leave (user : Claims.t) (req : Request) (db : DB)
  : DB * Response :=
  let groupId := Body.groupId (body req) in
  if negb (truthy groupId) then (db, reply 400 "Group ID is required.")
  else
    let userId := Claims.id user in
    match findById (db_groups db) groupId with
    | Throws => (db, reply 500 "Error leaving group.")
    | Null => (db, reply 404 "Group not found.")
    | Document gid group =>
        if negb (includes userId (Group.members group))
        then (db, reply 400 "User is not a member of this group.")
        else
          let group' :=
            Group.set_members
              (filter (λ memberId, memberId ≠ userId) (Group.members group))
              group in
          let db1 := save_Group gid group' db in
          match User_findById userId db1 with
          | None => (db1, reply 500 "Error leaving group.")
          | Some u =>
              let u' :=
                User.set_groups
                  (filter (λ gId, Some gId ≠ groupId) (User.groups u)) u in
              (save_User userId u' db1,
               reply 200 "User left the group successfully.")
          end
    end.

(** ** POST /api/groups/join (lines 340-372) *)

Definition join (user : Claims.t) (req : Request) (db : DB)
  : DB * Response :=
  let groupId := Body.groupId (body req) in
  if negb (truthy groupId) then (db, reply 400 "Group ID is required.")
  else
    let userId := Claims.id user in
    match findById (db_groups db) groupId with
    | Throws => (db, reply 500 "Error joining group.")
    | Null => (db, reply 404 "Group not found.")
    | Document gid group =>
        if includes userId (Group.members group)
        then (db, reply 400 "User is already a member of this group.")
        else
          let group' :=
            Group.set_members (Group.members group ++ [userId]) group in
          let db1 := save_Group gid group' db in
          match User_findById userId db1 with
          | None => (db1, reply 500 "Error joining group.")
          | Some u =>
              let u' := User.set_groups (User.groups u ++ [gid]) u in
              (save_User userId u' db1,
               reply 200 "User joined the group successfully.")
          end
    end.

(** ** POST /api/groups/create (lines 376-407) *)

Definition create_group (oid : ObjectId) (user : Claims.t) (req : Request)
    (db : DB) : DB * Response :=
  let b := body req in
  if negb (truthy (Body.name b)) || negb (truthy (Body.description b))
  then (db, reply 400 "Name and description are required.")
  else
    let userId := Claims.id user in
    let newGroup :=
      new_Group (Body.name b) (Body.description b) (Body.photoUrl b)
                [userId] [userId] in
    match newGroup, save_new_Group oid newGroup db with
    | Some group, inr db1 =>
        match User_findById userId db1 with
        | None => (db1, reply 500 "Error creating group.")
        | Some u =>
            let u' :=
              User.set_board_groups (User.board_groups u ++ [oid])
                (User.set_groups (User.groups u ++ [oid]) u) in
            (save_User userId u' db1,
             mkResponse 201
               (MessageGroup "Group created successfully." oid group) None)
        end
    | _, _ => (db, reply 500 "Error creating group.")
    end.

(** ** The router *)

(** The mutating routes of the application with what the runtime supplies to
    the handler. Express runs the first handler registered for a method and
    path, and that handler always ends the response: POST /api/posts is the
    authenticated [create_post], and [create_post_legacy] is never reached. *)
Inductive Call :=
| PostRegister (salt : string) (oid : ObjectId) (req : Request)
| PostLogin (now : Z) (req : Request)
| PostVerify (now : Z) (req : Request)
| PostPosts (now : Z) (oid : ObjectId) (req : Request)
| PostLeave (now : Z) (req : Request)
| PostJoin (now : Z) (req : Request)
| PostCreate (now : Z) (oid : ObjectId) (req : Request).

Definition handle (c : Call) (db : DB) : DB * Response :=
  match c with
  | PostRegister salt oid req => register salt oid req db
  | PostLogin now req => (db, login now req db)
  | PostVerify now req => (db, verify now req)
  | PostPosts now oid req => authenticated now (create_post now oid) req db
  | PostLeave now req => authenticated now leave req db
  | PostJoin now req => authenticated now join req db
  | PostCreate now oid req => authenticated now (create_group oid) req db
  end.

(** The database after a sequence of requests, handled in order. *)
Definition run (cs : list Call) (db : DB) : DB :=
  foldl (λ db c, (handle c db).1) db cs.

(** A Leave request that takes its caller out of [members] while the caller
    is in [admins] of the same group. *)
Definition admin_leaves (c : Call) (db : DB) : bool :=
  match c with
  | PostLeave now req =>
      match authenticate now req with
      | inl _ => false
      | inr user =>
          truthy (Body.groupId (body req))
          && match findById (db_groups db) (Body.groupId (body req)) with
             | Document _ group =>
                 includes (Claims.id user) (Group.members group)
                 && includes (Claims.id user) (Group.admins group)
             | _ => false
             end
      end
  | _ => false
  end.

(** No request of the sequence, run from [db], is such a Leave. *)
Fixpoint no_admin_leaves (cs : list Call) (db : DB) : bool :=
  match cs with
  | [] => true
  | c :: cs' => negb (admin_leaves c db) && no_admin_leaves cs' (handle c db).1
  end.

(** The group a Join or Leave request gets to when it is sent by user [a]
    and names group [gid]. *)
Definition targets (gid a : ObjectId) (now : Z) (req : Request) (db : DB)
  : option Group.t :=
  match authenticate now req with
  | inl _ => None
  | inr user =>
      if bool_decide (Claims.id user = a) && truthy (Body.groupId (body req))
      then
        match findById (db_groups db) (Body.groupId (body req)) with
        | Document gid' group =>
            if bool_decide (gid' = gid) then Some group else None
        | _ => None
        end
      else None
  end.

(** Whether user [a] has left group [gid], after one more request: a Leave
    of [a] that takes [a] out of the [members] of [gid] sets it, a Join of
    [a] that puts [a] into them clears it, and nothing else changes it. *)
Definition left_after (gid a : ObjectId) (c : Call) (db : DB) (left : bool)
  : bool :=
  match c with
  | PostLeave now req =>
      match targets gid a now req db with
      | Some group => if includes a (Group.members group) then true else left
      | None => left
      end
  | PostJoin now req =>
      match targets gid a now req db with
      | Some group => if includes a (Group.members group) then left else false
      | None => left
      end
  | _ => left
  end.

(** Whether user [a] has left group [gid] and not joined it again, after
    the requests [cs] handled from [db]. *)
Fixpoint has_left (gid a : ObjectId) (cs : list Call) (db : DB) (left : bool)
  : bool :=
  match cs with
  | [] => left
  | c :: cs' => has_left gid a cs' (handle c db).1 (left_after gid a c db left)
  end.

(** What is kept about one user [a] and one group [gid] along a run: [a]
    has left only a group that is stored, and if [a] is an admin of the
    group, [a] is a member exactly when [a] has not left. *)
Definition left_matches (gid a : ObjectId) (db : DB) (left : bool) : Prop :=
  (left = true → is_Some (db_groups db !! gid))
  ∧ ∀ g, db_groups db !! gid = Some g → a ∈ Group.admins g →
         (a ∈ Group.members g ↔ left = false).

(** ** Properties of a database state *)

(** Every admin of every group is a member of it. *)
Definition admins_are_members (db : DB) : Prop :=
  ∀ gid g, db_groups db !! gid = Some g → Group.admins g ⊆ Group.members g.

(** The unique index on [username] holds. *)
Definition usernames_unique (db : DB) : Prop :=
  ∀ i j u v, db_users db !! i = Some u → db_users db !! j = Some v →
             User.username u = User.username v → i = j.

(** The stored users with a given username. *)
Definition users_named (s : string) (db : DB) : gmap ObjectId User.t :=
  filter (λ kv : string * User.t, User.username kv.2 = s) (db_users db).

(** ** GET /api/user (lines 98-114) and GET /api/groups/user
    (lines 324-336) *)

(** [.populate(path)] on an array of Group references: each id is replaced
    by the group stored under it, and an id no group is stored under is
    dropped from the array. *)
Definition populate (ids : list ObjectId) (db : DB)
  : list (ObjectId * Group.t) :=
  omap (λ id, (id,.) <$> db_groups db !! id) ids.

(** The answer of a GET route: the response of a refusal, or the value sent
    with status 200. *)
Definition get_user (now : Z) (req : Request) (db : DB)
  : Response + (list (ObjectId * Group.t) * list (ObjectId * Group.t)) :=
  match authenticate now req with
  | inl res => inl res
  | inr decoded =>
      let userId := Claims.id decoded in
      match User_findById userId db with
      | None => inl (reply 404 "User not found.")
      | Some user =>
          inr (populate (User.board_groups user) db,
               populate (User.groups user) db)
      end
  end.

Definition get_groups_user (now : Z) (req : Request) (db : DB)
  : Response + list (ObjectId * Group.t) :=
  match authenticate now req with
  | inl res => inl res
  | inr decoded =>
      let userId := Claims.id decoded in
      match User_findById userId db with
      | None => inl (reply 404 "User not found.")
      | Some user => inr (populate (User.groups user) db)
      end
  end.

(** ** What one request can do to the database *)

(** The writes a handler performs, in the order it performs them. Every
    handler either leaves the database as it is or performs one of these
    (lemma [handle_change]). *)
Inductive change : DB → DB → Prop :=
| change_nothing db :
    change db db
| change_register db oid displayName username password :
    db_users db !! oid = None →
    username_taken username (db_users db) = false →
    username ≠ "" →
    change db
      (with_users
         (<[oid := User.mk displayName username password [] [] false]>
            (db_users db)) db)
| change_post db oid post gid g :
    db_posts db !! oid = None →
    db_groups db !! gid = Some g →
    Post.group post = gid →
    change db
      (save_Group gid (Group.set_posts (Group.posts g ++ [oid]) g)
         (with_posts (<[oid := post]> (db_posts db)) db))
| change_join_group db userId gid g :
    db_groups db !! gid = Some g →
    userId ∉ Group.members g →
    db_users db !! userId = None →
    change db
      (save_Group gid (Group.set_members (Group.members g ++ [userId]) g) db)
| change_join db userId gid g u :
    db_groups db !! gid = Some g →
    userId ∉ Group.members g →
    db_users db !! userId = Some u →
    change db
      (save_User userId (User.set_groups (User.groups u ++ [gid]) u)
         (save_Group gid
            (Group.set_members (Group.members g ++ [userId]) g) db))
| change_leave_group db userId gid g :
    db_groups db !! gid = Some g →
    userId ∈ Group.members g →
    db_users db !! userId = None →
    change db
      (save_Group gid
         (Group.set_members
            (filter (λ memberId, memberId ≠ userId) (Group.members g)) g) db)
| change_leave db userId gid g u (groupId : option string) :
    db_groups db !! gid = Some g →
    userId ∈ Group.members g →
    db_users db !! userId = Some u →
    change db
      (save_User userId
         (User.set_groups
            (filter (λ gId, Some gId ≠ groupId) (User.groups u)) u)
         (save_Group gid
            (Group.set_members
               (filter (λ memberId, memberId ≠ userId) (Group.members g)) g)
            db))
| change_create_group db userId oid name description photoUrl :
    db_groups db !! oid = None →
    db_users db !! userId = None →
    change db
      (with_groups
         (<[oid := Group.mk name description photoUrl [] [userId] [userId]]>
            (db_groups db)) db)
| change_create db userId oid name description photoUrl u :
    db_groups db !! oid = None →
    db_users db !! userId = Some u →
    change db
      (save_User userId
         (User.set_board_groups (User.board_groups u ++ [oid])
            (User.set_groups (User.groups u ++ [oid]) u))
         (with_groups
            (<[oid := Group.mk name description photoUrl [] [userId] [userId]]>
               (db_groups db)) db)).

(** ** More properties of a database state *)


(** Every id in the [posts] of a group is the id of a stored post of that
    group, and no id is there twice. *)
Definition group_posts_stored (db : DB) : Prop :=
  ∀ gid g, db_groups db !! gid = Some g →
           NoDup (Group.posts g)
           ∧ ∀ pid, pid ∈ Group.posts g →
                    ∃ post, db_posts db !! pid = Some post
                            ∧ Post.group post = gid.

(** Every id in the [groups] and [board_groups] of a user is the id of a
    stored group. *)
Definition user_groups_stored (db : DB) : Prop :=
  ∀ uid u gid, db_users db !! uid = Some u →
               gid ∈ User.groups u ++ User.board_groups u →
               is_Some (db_groups db !! gid).

(** No stored user is a site admin. *)
Definition no_site_admin (db : DB) : Prop :=
  ∀ uid u, db_users db !! uid = Some u → User.site_admin u = false.

(** [db'] keeps every document of [db]: posts as they are, groups with their
    name, description, photo and admins and with their [posts] extended,
    users with their name, credentials and flag and with their
    [board_groups] extended. *)
Definition keeps (db db' : DB) : Prop :=
  (∀ pid post, db_posts db !! pid = Some post →
               db_posts db' !! pid = Some post)
  ∧ (∀ gid g, db_groups db !! gid = Some g →
              ∃ g', db_groups db' !! gid = Some g'
                    ∧ Group.name g' = Group.name g
                    ∧ Group.description g' = Group.description g
                    ∧ Group.photoUrl g' = Group.photoUrl g
                    ∧ Group.admins g' = Group.admins g
                    ∧ Group.posts g `prefix_of` Group.posts g')
  ∧ (∀ uid u, db_users db !! uid = Some u →
              ∃ u', db_users db' !! uid = Some u'
                    ∧ User.username u' = User.username u
                    ∧ User.displayName u' = User.displayName u
                    ∧ User.password u' = User.password u
                    ∧ User.site_admin u' = User.site_admin u
                    ∧ User.board_groups u `prefix_of` User.board_groups u').

End Server.

(** ** A platform for the scenarios

    ObjectId strings are cast as bson does it: 24 hexadecimal digits in
    either case, printed back in lower case. The signature and the password
    hash are stand-ins that keep their input readable; dates are given as
    epoch milliseconds. *)
Module Demo.

Definition is_hex (c : ascii) : bool :=
  let n := nat_of_ascii c in
  bool_decide (48 ≤ n ≤ 57 ∨ 97 ≤ n ≤ 102 ∨ 65 ≤ n ≤ 70).

Definition lower (c : ascii) : ascii :=
  let n := nat_of_ascii c in
  if bool_decide (65 ≤ n ≤ 70) then ascii_of_nat (n + 32) else c.

Fixpoint map_string (f : ascii → ascii) (s : string) : string :=
  match s with
  | EmptyString => EmptyString
  | String c s' => String (f c) (map_string f s')
  end.

Definition castObjectId (s : string) : option string :=
  if bool_decide (String.length s = 24)
     && forallb is_hex (String.list_ascii_of_string s)
  then Some (map_string lower s)
  else None.

Definition digit (c : ascii) : option Z :=
  let n := Z.of_nat (nat_of_ascii c) in
  if bool_decide (48 ≤ n ≤ 57)%Z then Some (n - 48)%Z else None.

Fixpoint decimal (acc : Z) (s : string) : option Z :=
  match s with
  | EmptyString => Some acc
  | String c s' => d ← digit c; decimal (10 * acc + d)%Z s'
  end.

Definition castDate (s : string) : option Z := decimal 0 s.

Definition hmac (secret : string) (c : Claims.t) : string :=
  secret +:+ "|" +:+ Claims.id c +:+ "|" +:+ Claims.username c +:+ "|"
  +:+ Claims.displayName c +:+ "|" +:+ pretty (Claims.iat c) +:+ "|"
  +:+ pretty (Claims.exp c).

Definition bcrypt_hash (salt pw : string) : string := "$2b$10$" +:+ pw.

Definition bcrypt_compare (pw hash : string) : bool :=
  bool_decide (hash = "$2b$10$" +:+ pw).

Definition platform : Platform :=
  {| JWT_SECRET := Some "s3cret";
     NODE_ENV := None;
     Clubspot.hmac := hmac;
     Clubspot.bcrypt_hash := bcrypt_hash;
     Clubspot.bcrypt_compare := bcrypt_compare;
     bcrypt_hash_nonempty := λ _ _, ltac:(discriminate);
     Clubspot.castObjectId := castObjectId;
     Clubspot.castDate := castDate |}.

(** Requests of the scenarios. *)
Definition register_body (username displayName password : string) : Body.t :=
  Body.mk (Some username) (Some displayName) (Some password)
          None None None None None None None None None.
Definition login_body (username password : string) : Body.t :=
  Body.mk (Some username) None (Some password)
          None None None None None None None None None.
Definition group_body (name description : string) : Body.t :=
  Body.mk None None None (Some name) None (Some description)
          None None None None None None.
Definition groupId_body (groupId : string) : Body.t :=
  Body.mk None None None None None None None (Some groupId)
          None None None None.
Definition post_body (group postName : string) (isEvent : bool)
    (date location : option string) : Body.t :=
  Body.mk None None None None (Some postName) None (Some group) None
          (Some isEvent) date location None.
Definition legacy_body (name group : string) (isEvent : option Json)
    (username : string) : LegacyBody.t :=
  LegacyBody.mk (Some (JString name)) None (Some (JString group)) isEvent
                None None None (Some (JString username)).

Definition anonymous (b : Body.t) : Request := mkRequest None b.
Definition with_token (t : Jwt) (b : Body.t) : Request :=
  mkRequest (Some t) b.

(** The token a login at clock [now] issues for a user. *)
Definition token_of (now : Z) (id username displayName : string) : Jwt :=
  default (JwtMalformed "")
    (jwt_sign (H := platform) now id username displayName).

Definition alice_id : string := "64b0c0ffee0123456789abcd".
Definition bob_id : string := "64b0c0ffee0123456789abce".
Definition club_id : string := "64b0c0ffee0123456789abcf".
Definition post_id : string := "64b0c0ffee0123456789abd0".
Definition alice_token : Jwt := token_of 1000 alice_id "alice" "Alice".
Definition bob_token : Jwt := token_of 1000 bob_id "bob" "Bob".

(** What the tokens of alice and bob decode to. *)
Definition alice_claims : Claims.t :=
  Claims.mk alice_id "alice" "Alice" 1 86401.
Definition bob_claims : Claims.t := Claims.mk bob_id "bob" "Bob" 1 86401.

(** The same group id as [club_id], written in upper case. *)
Definition club_id_upper : string := "64B0C0FFEE0123456789ABCF".

Definition register_alice : Call :=
  PostRegister "salt" alice_id
    (anonymous (register_body "alice" "Alice" "pw")).
Definition register_bob : Call :=
  PostRegister "salt" bob_id (anonymous (register_body "bob" "Bob" "pw2")).
Definition alice_creates_club : Call :=
  PostCreate 2000 club_id
    (with_token alice_token (group_body "Book Club" "Readers")).
Definition bob_joins : Call :=
  PostJoin 3000 (with_token bob_token (groupId_body club_id)).
Definition bob_leaves : Call :=
  PostLeave 4000 (with_token bob_token (groupId_body club_id)).
Definition alice_leaves : Call :=
  PostLeave 4000 (with_token alice_token (groupId_body club_id)).

(** alice is registered. *)
Definition db_alice : DB := run (H := platform) [register_alice] empty_db.

(** alice and bob are registered, alice has created the club and bob has
    joined it. *)
Definition db_club : DB :=
  run (H := platform)
    [register_alice; register_bob; alice_creates_club; bob_joins] empty_db.

(** The club as [db_club] stores it. *)
Definition club : Group.t :=
  Group.mk "Book Club" "Readers" None [] [alice_id; bob_id] [alice_id].

(** alice and bob are registered and alice has created the club. *)
Definition db_created : DB :=
  run (H := platform) [register_alice; register_bob; alice_creates_club]
    empty_db.

(** The club as [db_created] stores it, and bob as both states store him
    before he joins. *)
Definition club_created : Group.t :=
  Group.mk "Book Club" "Readers" None [] [alice_id] [alice_id].
Definition bob : User.t := User.mk "Bob" "bob" "$2b$10$pw2" [] [] false.

(** carol holds a token with a valid signature, and no user document is
    stored under her id. *)
Definition carol_id : string := "64b0c0ffee0123456789abd1".
Definition carol_token : Jwt := token_of 1000 carol_id "carol" "Carol".
Definition carol_claims : Claims.t :=
  Claims.mk carol_id "carol" "Carol" 1 86401.

(** A post request without [isEvent]. *)
Definition post_body_no_isEvent (group postName : string) : Body.t :=
  Body.mk None None None None (Some postName) None (Some group) None
          None None None None.

(** The casts of mongoose on JSON values: strings stay, numbers and
    booleans are printed; [true], ["true"], [1], ["1"], ["yes"] are true
    and [false], ["false"], [0], ["0"], ["no"] are false; an ObjectId is
    cast from a string; a date from a number or a string, the empty string
    giving none; [null] gives no value. *)
Definition castStringJ (j : Json) : option (option string) :=
  match j with
  | JNull => Some None
  | JBool b => Some (Some (if b then "true" else "false"))
  | JNumber z => Some (Some (pretty z))
  | JString s => Some (Some s)
  | JOther => None
  end.

Definition castBooleanJ (j : Json) : option (option bool) :=
  match j with
  | JNull => Some None
  | JBool b => Some (Some b)
  | JNumber z =>
      if bool_decide (z = 1%Z) then Some (Some true)
      else if bool_decide (z = 0%Z) then Some (Some false)
      else None
  | JString s =>
      if bool_decide (s ∈ ["true"; "1"; "yes"]) then Some (Some true)
      else if bool_decide (s ∈ ["false"; "0"; "no"]) then Some (Some false)
      else None
  | JOther => None
  end.

Definition castObjectIdJ (j : Json) : option (option string) :=
  match j with
  | JNull => Some None
  | JString s => Some <$> castObjectId s
  | _ => None
  end.

Definition castDateJ (j : Json) : option (option Z) :=
  match j with
  | JNull => Some None
  | JNumber z => Some (Some z)
  | JString s => if bool_decide (s = "") then Some None else Some <$> castDate s
  | _ => None
  end.

Definition schema_cast : SchemaCast :=
  {| Clubspot.castStringJ := castStringJ;
     Clubspot.castBooleanJ := castBooleanJ;
     Clubspot.castObjectIdJ := castObjectIdJ;
     Clubspot.castDateJ := castDateJ |}.

(** bob creates a second club, and alice joins her club again. *)
Definition club2_id : string := "64b0c0ffee0123456789abd2".
Definition bob_creates_club2 : Call :=
  PostCreate 2500 club2_id
    (with_token bob_token (group_body "Chess Club" "Players")).
Definition alice_joins : Call :=
  PostJoin 4500 (with_token alice_token (groupId_body club_id)).

(** The same platform with JWT_SECRET not set. *)
Definition platform_no_secret : Platform :=
  {| JWT_SECRET := None;
     NODE_ENV := None;
     Clubspot.hmac := hmac;
     Clubspot.bcrypt_hash := bcrypt_hash;
     Clubspot.bcrypt_compare := bcrypt_compare;
     bcrypt_hash_nonempty := λ _ _, ltac:(discriminate);
     Clubspot.castObjectId := castObjectId;
     Clubspot.castDate := castDate |}.

End Demo.

End Clubspot.
Import Clubspot.

(** * Properties of the handlers, for every platform *)

Section Properties.
Context `{Platform}.
Implicit Types (db : DB) (req : Request) (user : Claims.t) (now : Z).

(** ** Auxiliary facts *)

(** Case analysis on every branch a handler takes. *)
Ltac handler_cases :=
  unfold User_findById in *; repeat (case_match; simplify_eq/=; try done).

(** A truthy string field is present, not empty, and passes [required]. *)
Lemma truthy_required (v : option string) :
  truthy v = true → ∃ s, v = Some s ∧ s ≠ "" ∧ required v = Some s.
Proof.
  destruct v as [s|]; [|done]. simpl.
  case_bool_decide; [done|]. intros _. by exists s.
Qed.

Lemma required_Some (s : string) : s ≠ "" → required (Some s) = Some s.
Proof. intros Hs. simpl. by rewrite bool_decide_eq_false_2. Qed.

Lemma truthy_Some (s : string) : s ≠ "" → truthy (Some s) = true.
Proof. intros Hs. simpl. by rewrite bool_decide_eq_false_2. Qed.

(** [User.findOne] returns a stored user with the username asked for. *)
Lemma User_findOne_Some (s : string) (coll : gmap ObjectId User.t) uid u :
  User_findOne (Some s) coll = Some (uid, u) →
  coll !! uid = Some u ∧ User.username u = s.
Proof.
  unfold User_findOne. intros Hfind.
  apply fmap_Some in Hfind as ([i [k v]] & Hfind & Heq).
  simpl in Heq. injection Heq as -> ->.
  apply list_find_Some in Hfind as (Hi & Hname & _).
  split; [|done].
  apply elem_of_map_to_list. by eapply list_elem_of_lookup_2.
Qed.

(** It returns nothing only when no stored user has that username. *)
Lemma User_findOne_None (s : string) (coll : gmap ObjectId User.t) :
  User_findOne (Some s) coll = None ↔
  ∀ i u, coll !! i = Some u → User.username u ≠ s.
Proof.
  unfold User_findOne. rewrite fmap_None, list_find_None, Forall_forall.
  split.
  - intros Hall i u Hiu. by apply (Hall (i, u)), elem_of_map_to_list.
  - intros Hall [i u] Hin%elem_of_map_to_list. by apply (Hall i u).
Qed.

Lemma username_taken_true (s : string) (coll : gmap ObjectId User.t) :
  username_taken s coll = true ↔
  ∃ i u, coll !! i = Some u ∧ User.username u = s.
Proof.
  unfold username_taken. rewrite bool_decide_eq_true, Exists_exists.
  split.
  - intros ([i u] & Hin%elem_of_map_to_list & Hname). by exists i, u.
  - intros (i & u & Hiu & Hname). exists (i, u).
    by rewrite elem_of_map_to_list.
Qed.

(** Under the unique index, [User.findOne] returns the one user that has
    the username. *)
Lemma User_findOne_unique db (s : string) uid u :
  usernames_unique db →
  db_users db !! uid = Some u → User.username u = s →
  User_findOne (Some s) (db_users db) = Some (uid, u).
Proof.
  intros Huniq Hu Hname.
  destruct (User_findOne (Some s) (db_users db)) as [[j v]|] eqn:Hfind.
  - apply User_findOne_Some in Hfind as [Hv Hvname].
    assert (uid = j) as <- by (eapply Huniq; eauto; congruence).
    congruence.
  - rewrite User_findOne_None in Hfind. by destruct (Hfind uid u).
Qed.

(** A group that passes validation has the lists it was built with. *)
Lemma new_Group_Some name description photoUrl members admins g :
  new_Group name description photoUrl members admins = Some g →
  required name = Some (Group.name g)
  ∧ required description = Some (Group.description g)
  ∧ Group.members g = members ∧ Group.admins g = admins.
Proof.
  unfold new_Group.
  destruct (required name), (required description); simpl; try done.
  by intros [= <-].
Qed.

(** A document [findById] returns is the one stored under the id. *)
Lemma findById_Document {A : Type} (coll : gmap string A) id gid doc :
  findById coll id = Document gid doc → coll !! gid = Some doc.
Proof.
  unfold findById. destruct id as [s|]; [|done].
  destruct (castObjectId s) as [oid|]; [|done].
  destruct (coll !! oid) eqn:E; [|done]. by intros [= <- <-].
Qed.

(** Under the unique index the users with a username are the one that has
    it. *)
Lemma users_named_singleton db (s : string) i u :
  usernames_unique db →
  db_users db !! i = Some u → User.username u = s →
  users_named s db = {[ i := u ]}.
Proof.
  intros Huniq Hu Hname. apply map_eq. intros j. apply option_eq. intros v.
  unfold users_named.
  rewrite map_lookup_filter_Some, lookup_singleton_Some. simpl. split.
  - intros [Hv Hvname].
    assert (i = j) as <- by (eapply Huniq; eauto; congruence).
    split; congruence.
  - intros [<- <-]. done.
Qed.

(** What [register] does once its three fields are present. *)
Lemma register_present salt oid req db (s : string) :
  Body.username (body req) = Some s → s ≠ "" →
  truthy (Body.displayName (body req)) = true →
  truthy (Body.password (body req)) = true →
  ∃ d pw,
    Body.displayName (body req) = Some d
    ∧ Body.password (body req) = Some pw
    ∧ register salt oid req db
      = if bool_decide (is_Some (db_users db !! oid))
           || username_taken s (db_users db)
        then (db, reply 400 "Username already exists.")
        else (with_users
                (<[oid := User.mk d s (bcrypt_hash salt pw) [] [] false]>
                   (db_users db)) db,
              reply 201 "User registered successfully.").
Proof.
  intros Es Hs Hd Hp. unfold register.
  rewrite Es, truthy_Some, Hd, Hp by done. simpl.
  destruct (truthy_required _ Hd) as (d & Ed & _ & Rd).
  destruct (truthy_required _ Hp) as (pw & Ep & _ & _).
  exists d, pw. do 2 (split; [done|]).
  unfold new_User. rewrite Rd, Ep.
  change (default "" (Some pw)) with pw.
  rewrite (required_Some s) by done.
  rewrite (required_Some (bcrypt_hash salt pw)) by apply bcrypt_hash_nonempty.
  simpl.
  by destruct (bool_decide (is_Some (db_users db !! oid))
               || username_taken s (db_users db)).
Qed.

(** [register] never touches the groups, and keeps the index. *)
Lemma register_groups salt oid req db :
  db_groups (register salt oid req db).1 = db_groups db.
Proof.
  unfold register, save_new_User. handler_cases.
Qed.

Lemma register_unique salt oid req db :
  usernames_unique db → usernames_unique (register salt oid req db).1.
Proof.
  intros Huniq. unfold register, save_new_User. handler_cases.
  match goal with
  | E : _ || _ = false |- _ => apply orb_false_iff in E as [Hid Htaken]
  end.
  apply bool_decide_eq_false in Hid.
  assert (∀ i u, db_users db !! i = Some u →
                 User.username u ≠ User.username t) as Hfree.
  { intros i u Hu Hname.
    assert (username_taken (User.username t) (db_users db) = true)
      by (apply username_taken_true; eauto).
    congruence. }
  intros i j u v. unfold with_users. simpl.
  rewrite !lookup_insert_Some.
  intros [[<- <-] | [Hi Hu]] [[<- <-] | [Hj Hv]] Hname; try done.
  - by destruct (Hfree j v).
  - by destruct (Hfree i u).
  - by eapply Huniq.
Qed.

(** ** Posting *)

(** The first check of [create_post]: what it answers when a required
    field is missing. *)
Lemma create_post_missing_fields now oid req db user :
  truthy (Body.group (body req)) = false
  ∨ truthy (Body.postName (body req)) = false
  ∨ (truthyb (Body.isEvent (body req)) = true
     ∧ (truthy (Body.date (body req)) = false
        ∨ truthy (Body.location (body req)) = false)) →
  create_post now oid user req db
  = (db, reply 400 "Required fields are missing.").
Proof.
  unfold create_post. set (b := body req).
  intros [Hg | [Hp | [He [Hd | Hl]]]].
  - by rewrite Hg.
  - rewrite Hp. by destruct (truthy (Body.group b)).
  - rewrite He, Hd.
    by destruct (truthy (Body.group b)), (truthy (Body.postName b)).
  - rewrite He, Hl.
    by destruct (truthy (Body.group b)), (truthy (Body.postName b)),
                (truthy (Body.date b)).
Qed.

(** C2: an authenticated post-creation request whose required fields are
    present and whose group exists, sent by a caller who is not in the
    group's [admins], is answered 403 and leaves the database as it was (no
    post is stored and the group's [posts] is untouched). The checks come in
    this order: missing fields are answered 400 whatever the group and the
    caller are; with the fields present a group that is not found is
    answered 404 whoever the caller is; only then is the caller looked up in
    [admins]. *)
Theorem create_post_requires_admin now oid req db user :
  authenticate now req = inr user →
  let b := body req in
  let result := authenticated now (create_post now oid) req db in
  (truthy (Body.group b) = false ∨ truthy (Body.postName b) = false
   ∨ (truthyb (Body.isEvent b) = true
      ∧ (truthy (Body.date b) = false ∨ truthy (Body.location b) = false)) →
   result = (db, reply 400 "Required fields are missing."))
  ∧ (truthy (Body.group b) = true → truthy (Body.postName b) = true →
     (truthyb (Body.isEvent b) = true →
      truthy (Body.date b) = true ∧ truthy (Body.location b) = true) →
     (findById (db_groups db) (Body.group b) = Null →
      result = (db, reply 404 "Group not found."))
     ∧ (∀ gid g,
          findById (db_groups db) (Body.group b) = Document gid g →
          Claims.id user ∉ Group.admins g →
          result
          = (db, reply 403 "You must be an admin to post in this group."))).
Proof.
  intros Hauth b result. subst result.
  unfold authenticated. rewrite Hauth.
  split.
  - apply create_post_missing_fields.
  - unfold create_post. fold b.
    intros Hg Hp Hev. rewrite Hg, Hp. simpl.
    assert (truthyb (Body.isEvent b)
            && (negb (truthy (Body.date b))
                || negb (truthy (Body.location b))) = false) as ->.
    { destruct (truthyb (Body.isEvent b)); [|done].
      destruct Hev as [-> ->]; done. }
    split.
    + by intros ->.
    + intros gid g -> Hadm. unfold includes.
      by rewrite bool_decide_eq_false_2.
Qed.

(** C8: an authenticated post-creation request with [isEvent] true and
    [date] or [location] missing is answered 400 and stores nothing,
    whatever the group is and whether or not the caller is one of its
    admins. *)
Theorem create_post_event_needs_date_and_location now oid req db user :
  authenticate now req = inr user →
  Body.isEvent (body req) = Some true →
  truthy (Body.date (body req)) = false
  ∨ truthy (Body.location (body req)) = false →
  authenticated now (create_post now oid) req db
  = (db, reply 400 "Required fields are missing.").
Proof.
  intros Hauth Hev Hmiss.
  unfold authenticated. rewrite Hauth.
  apply create_post_missing_fields.
  right; right. by rewrite Hev.
Qed.

(** ** Membership *)

(** C3: a Join request by an authenticated caller who is already in the
    [members] of the group it names is answered 400 and changes nothing:
    the group document and the caller's user document stay as they were.
    The message is the already-a-member one. *)
Theorem join_twice_conflict now req db user gid g :
  authenticate now req = inr user →
  findById (db_groups db) (Body.groupId (body req)) = Document gid g →
  Claims.id user ∈ Group.members g →
  let result := authenticated now join req db in
  result.1 = db
  ∧ status result.2 = 400
  ∧ (truthy (Body.groupId (body req)) = true →
     result.2 = reply 400 "User is already a member of this group.").
Proof.
  intros Hauth Hfind Hmem result. subst result.
  unfold authenticated. rewrite Hauth. unfold join.
  destruct (truthy (Body.groupId (body req))); simpl.
  - rewrite Hfind. unfold includes. by rewrite bool_decide_eq_true_2.
  - done.
Qed.

(** C6: an authenticated group-creation request with [name] and
    [description] present stores a new group whose [members] and [admins]
    are both exactly the caller's id, appends the id of the new group to the
    caller's [groups] and [board_groups], and is answered 201 with the
    group. The ObjectId drawn for the group is one no group has yet, and
    the caller's user document is in the collection. *)
Theorem create_group_effect now oid req db user u :
  authenticate now req = inr user →
  truthy (Body.name (body req)) = true →
  truthy (Body.description (body req)) = true →
  db_groups db !! oid = None →
  db_users db !! Claims.id user = Some u →
  ∃ name description,
    Body.name (body req) = Some name
    ∧ Body.description (body req) = Some description
    ∧ let group :=
        Group.mk name description (Body.photoUrl (body req)) []
                 [Claims.id user] [Claims.id user] in
      let u' :=
        User.mk (User.displayName u) (User.username u) (User.password u)
                (User.groups u ++ [oid]) (User.board_groups u ++ [oid])
                (User.site_admin u) in
      authenticated now (create_group oid) req db
      = (mkDB (<[Claims.id user := u']> (db_users db))
              (<[oid := group]> (db_groups db))
              (db_posts db),
         mkResponse 201
           (MessageGroup "Group created successfully." oid group) None).
Proof.
  intros Hauth Hn Hd Hfresh Hu.
  unfold authenticated. rewrite Hauth. unfold create_group.
  rewrite Hn, Hd. simpl.
  destruct (truthy_required _ Hn) as (name & En & _ & Rn).
  destruct (truthy_required _ Hd) as (description & Ed & _ & Rd).
  exists name, description. do 2 (split; [done|]).
  unfold new_Group. rewrite Rn, Rd. simpl.
  rewrite Hfresh. simpl. unfold User_findById. simpl. by rewrite Hu.
Qed.

(** What a Leave request does when it succeeds: the caller is filtered out
    of the group's [members], and the ids whose string differs from the
    [groupId] of the request are kept in the caller's [groups]; [admins],
    [board_groups] and everything else stay. *)
Lemma leave_effect now req db user gid g u :
  authenticate now req = inr user →
  truthy (Body.groupId (body req)) = true →
  findById (db_groups db) (Body.groupId (body req)) = Document gid g →
  Claims.id user ∈ Group.members g →
  db_users db !! Claims.id user = Some u →
  let g' :=
    Group.mk (Group.name g) (Group.description g) (Group.photoUrl g)
      (Group.posts g)
      (filter (λ memberId, memberId ≠ Claims.id user) (Group.members g))
      (Group.admins g) in
  let u' :=
    User.mk (User.displayName u) (User.username u) (User.password u)
      (filter (λ gId, Some gId ≠ Body.groupId (body req)) (User.groups u))
      (User.board_groups u) (User.site_admin u) in
  authenticated now leave req db
  = (mkDB (<[Claims.id user := u']> (db_users db))
          (<[gid := g']> (db_groups db))
          (db_posts db),
     reply 200 "User left the group successfully.").
Proof.
  intros Hauth Ht Hfind Hmem Hu.
  unfold authenticated. rewrite Hauth. unfold leave.
  rewrite Ht, Hfind. simpl. unfold includes.
  rewrite (bool_decide_eq_true_2 _ Hmem). simpl.
  unfold User_findById. simpl. by rewrite Hu.
Qed.

(** After a successful Leave the caller is not in [members]; and when the
    request gave the group id as the ObjectId prints it, the group is not in
    the caller's [groups] either. *)
Lemma leave_removes (userId : ObjectId) (members groups : list ObjectId)
    (gid : ObjectId) :
  (userId ∉ filter (λ memberId, memberId ≠ userId) members)
  ∧ (gid ∉ filter (λ gId, Some gId ≠ Some gid) groups).
Proof.
  split; intros [Hne _]%list_elem_of_filter; by apply Hne.
Qed.

(** ** The second handler of POST /api/posts *)

Context `{SchemaCast}.

(** C10, as the code has it: the unauthenticated post-creation handler
    answers 400 and stores nothing when [isEvent] is falsy, which is what
    [false], an absent field, [null], [0] and the empty string are;
    whenever it stores a post or answers 201, [name], [group], [isEvent]
    and [username] were all truthy; and with these four truthy it stores
    the post and answers 201 as soon as the schema casts succeed, whether
    or not [date] and [location] are given and whether or not any group has
    the id. A truthy [isEvent] need not be [true]: the post is stored with
    the boolean the schema casts it to. *)
Theorem create_post_legacy_needs_truthy_isEvent now oid (b : LegacyBody.t) db :
  let result := create_post_legacy now oid b db in
  (js_truthy (LegacyBody.isEvent b) = false →
   result = (db, reply 400 "Name, group, and event status are required."))
  ∧ (LegacyBody.isEvent b = Some (JBool false) →
     result = (db, reply 400 "Name, group, and event status are required."))
  ∧ (result.1 ≠ db ∨ status result.2 = 201 →
     js_truthy (LegacyBody.isEvent b) = true
     ∧ js_truthy (LegacyBody.name b) = true
     ∧ js_truthy (LegacyBody.group b) = true
     ∧ js_truthy (LegacyBody.username b) = true)
  ∧ (∀ name description gid isEvent date location photoUrl username,
       js_truthy (LegacyBody.name b) = true →
       js_truthy (LegacyBody.group b) = true →
       js_truthy (LegacyBody.isEvent b) = true →
       js_truthy (LegacyBody.username b) = true →
       cast_path castStringJ (LegacyBody.name b) = Some (Some name) →
       name ≠ "" →
       cast_path castStringJ (LegacyBody.description b) = Some description →
       cast_path castObjectIdJ (LegacyBody.group b) = Some (Some gid) →
       cast_path castBooleanJ (LegacyBody.isEvent b) = Some (Some isEvent) →
       cast_path castDateJ (LegacyBody.date b) = Some date →
       cast_path castStringJ (LegacyBody.location b) = Some location →
       cast_path castStringJ (LegacyBody.photoUrl b) = Some photoUrl →
       cast_path castStringJ (LegacyBody.username b) = Some (Some username) →
       username ≠ "" →
       db_posts db !! oid = None →
       let post :=
         Post.mk name description gid isEvent date location photoUrl
                 username now in
       result
       = (mkDB (db_users db) (db_groups db) (<[oid := post]> (db_posts db)),
          mkResponse 201
            (MessagePost "Post created successfully." oid post) None)).
Proof.
  intros result. subst result. unfold create_post_legacy.
  split; [|split; [|split]].
  - intros ->.
    by destruct (js_truthy (LegacyBody.name b)),
                (js_truthy (LegacyBody.group b)).
  - intros ->. simpl.
    by destruct (js_truthy (LegacyBody.name b)),
                (js_truthy (LegacyBody.group b)).
  - destruct (js_truthy (LegacyBody.name b)), (js_truthy (LegacyBody.group b)),
      (js_truthy (LegacyBody.isEvent b)), (js_truthy (LegacyBody.username b));
      simpl; try (intros [Hdb | Hst]; [by destruct Hdb | discriminate Hst]).
    done.
  - intros name description gid isEvent date location photoUrl username
      Hn Hg He Hu Cn Hname Cds Cg Ce Cd Cl Cp Cu Husername Hfresh.
    rewrite Hn, Hg, He, Hu. simpl.
    unfold new_Post_legacy. rewrite Cn, Cds, Cg, Ce, Cd, Cl, Cp, Cu. simpl.
    rewrite (bool_decide_eq_false_2 (name = "")) by done. simpl.
    rewrite (bool_decide_eq_false_2 (username = "")) by done. simpl.
    by rewrite Hfresh.
Qed.

(** ** Sessions *)

(** C4: when a login succeeds, the cookie carries a token whose payload is
    the id, username and displayName of the stored user that logged in (the
    one with the username of the request, whose hash the password matches),
    with [iat] the clock in seconds and [exp] one day (86400 s) after it;
    [verify] given that token answers 200 with the same three values as
    long as the clock is before [exp], and 401 from [exp] on; and a token
    whose signature is not the one the server's secret gives its payload,
    or that does not parse, is answered 401. *)
Theorem login_token_verifies now req db :
  status (login now req db) = 200 →
  ∃ uid u secret,
    db_users db !! uid = Some u
    ∧ Body.username (body req) = Some (User.username u)
    ∧ (∃ password, Body.password (body req) = Some password
                   ∧ bcrypt_compare password (User.password u) = true)
    ∧ usable_secret = Some secret
    ∧ let iat := (now `div` 1000)%Z in
      let payload :=
        Claims.mk uid (User.username u) (User.displayName u) iat
                  (iat + 86400)%Z in
      let token := JwtSigned payload (hmac secret payload) in
      login now req db
      = mkResponse 200
          (MessageDisplayName "Login successful." (User.displayName u))
          (Some (mkSetCookie token true
                   (bool_decide (NODE_ENV = Some "production")) 86400000))
      ∧ (∀ now' b, (now' `div` 1000 < iat + 86400)%Z →
           verify now' (mkRequest (Some token) b)
           = mkResponse 200
               (Identity uid (User.username u) (User.displayName u)) None)
      ∧ (∀ now' b, (iat + 86400 ≤ now' `div` 1000)%Z →
           verify now' (mkRequest (Some token) b)
           = reply 401 "Invalid token.")
      ∧ (∀ now' b payload' signature',
           signature' ≠ hmac secret payload' →
           verify now' (mkRequest (Some (JwtSigned payload' signature')) b)
           = reply 401 "Invalid token.")
      ∧ (∀ now' b raw,
           status (verify now' (mkRequest (Some (JwtMalformed raw)) b))
           = 401).
Proof.
  unfold login. intros Hok.
  destruct (Body.username (body req)) as [s|] eqn:Es; [|done].
  destruct (User_findOne (Some s) (db_users db)) as [[uid u]|] eqn:Hfind;
    [|done].
  apply User_findOne_Some in Hfind as [Hu <-].
  destruct (Body.password (body req)) as [password|]; [|done].
  destruct (bcrypt_compare password (User.password u)) eqn:Hmatch; [|done].
  simpl in *. unfold jwt_sign in *.
  destruct usable_secret as [secret|] eqn:Hsec; [|done].
  exists uid, u, secret. do 2 (split; [done|]).
  split; [by exists password|]. split; [done|]. simpl.
  split; [done|].
  unfold verify. simpl. unfold jwt_verify. rewrite Hsec. simpl.
  repeat split.
  - intros now' b Hlt.
    rewrite bool_decide_eq_true_2 by done. simpl.
    by rewrite bool_decide_eq_false_2 by lia.
  - intros now' b Hge.
    rewrite bool_decide_eq_true_2 by done. simpl.
    by rewrite bool_decide_eq_true_2 by lia.
  - intros now' b payload' signature' Hsig.
    by rewrite bool_decide_eq_false_2.
  - intros now' b raw. by destruct (bool_decide (raw = "")).
Qed.

(** C5, as the code has it: a login with a username no stored user has is
    answered 404 "User not found.", and a login with the username of a
    stored user and a password that does not match its hash is answered 401
    "Invalid credentials."; each answer is the same for every such attempt,
    and the two differ in status and in message. *)
Theorem login_failure_responses now req db (s : string) :
  Body.username (body req) = Some s →
  ((∀ i u, db_users db !! i = Some u → User.username u ≠ s) →
   login now req db = reply 404 "User not found.")
  ∧ (∀ uid u password,
       usernames_unique db →
       db_users db !! uid = Some u → User.username u = s →
       Body.password (body req) = Some password →
       bcrypt_compare password (User.password u) = false →
       login now req db = reply 401 "Invalid credentials.")
  ∧ reply 404 "User not found." ≠ reply 401 "Invalid credentials.".
Proof.
  intros Es. unfold login. rewrite Es. repeat split.
  - intros Hnone. apply User_findOne_None in Hnone. by rewrite Hnone.
  - intros uid u password Huniq Hu Hname Hpw Hcmp.
    rewrite (User_findOne_unique db s uid u) by done.
    by rewrite Hpw, Hcmp.
  - done.
Qed.

(** ** Registration *)

(** C9: two registrations with the same username, each with its three
    fields present, leave exactly one stored user with that username, and
    the second is answered 400 "Username already exists.". The database
    they start from respects the unique index, and the ObjectId drawn for
    the first user is one no user has yet; the first is answered 201 when
    the username was free. *)
Theorem register_twice_conflict salt1 oid1 salt2 oid2 req1 req2 db
    (s : string) :
  usernames_unique db →
  db_users db !! oid1 = None →
  Body.username (body req1) = Some s →
  Body.username (body req2) = Some s →
  s ≠ "" →
  truthy (Body.displayName (body req1)) = true →
  truthy (Body.password (body req1)) = true →
  truthy (Body.displayName (body req2)) = true →
  truthy (Body.password (body req2)) = true →
  let first := register salt1 oid1 req1 db in
  let second := register salt2 oid2 req2 first.1 in
  second.2 = reply 400 "Username already exists."
  ∧ size (users_named s second.1) = 1
  ∧ (username_taken s (db_users db) = false →
     first.2 = reply 201 "User registered successfully.").
Proof.
  intros Huniq Hfresh E1 E2 Hs Hd1 Hp1 Hd2 Hp2 first second.
  assert (usernames_unique first.1) as Huniq1 by by apply register_unique.
  assert (∃ i u, db_users first.1 !! i = Some u ∧ User.username u = s)
    as (i & u & Hu & Hname).
  { subst first.
    destruct (register_present salt1 oid1 req1 db s) as (d & pw & _ & _ & ->);
      [done..|].
    rewrite Hfresh, bool_decide_eq_false_2 by (by intros [? ?]). simpl.
    destruct (username_taken s (db_users db)) eqn:Htaken; simpl.
    - by apply username_taken_true.
    - eexists oid1, _. by rewrite lookup_insert_eq. }
  assert (second = (first.1, reply 400 "Username already exists.")) as ->.
  { subst second.
    destruct (register_present salt2 oid2 req2 first.1 s)
      as (d & pw & _ & _ & ->); [done..|].
    assert (username_taken s (db_users first.1) = true) as ->
      by (apply username_taken_true; eauto).
    by rewrite orb_true_r. }
  simpl. split; [done|]. split.
  - rewrite (users_named_singleton _ s i u) by done.
    apply map_size_singleton.
  - intros Hfree. subst first.
    destruct (register_present salt1 oid1 req1 db s) as (d & pw & _ & _ & ->);
      [done..|].
    rewrite Hfresh, Hfree, bool_decide_eq_false_2 by (by intros [? ?]).
    done.
Qed.

(** ** Reachable states *)

Lemma admins_are_members_same_groups db db' :
  db_groups db' = db_groups db →
  admins_are_members db → admins_are_members db'.
Proof. unfold admins_are_members. by intros ->. Qed.

Lemma admins_are_members_update db db' gid g :
  db_groups db' = <[gid := g]> (db_groups db) →
  Group.admins g ⊆ Group.members g →
  admins_are_members db → admins_are_members db'.
Proof.
  unfold admins_are_members. intros -> Hg Hinv gid' g'.
  rewrite lookup_insert_Some. intros [[<- <-] | [_ Hold]]; eauto.
Qed.

(** Every handler keeps the admins among the members, except a Leave of an
    admin. *)
Lemma handle_admins_are_members c db :
  admins_are_members db → admin_leaves c db = false →
  admins_are_members (handle c db).1.
Proof.
  intros Hinv Hleave. destruct c; simpl in *.
  - eapply admins_are_members_same_groups; [apply register_groups|done].
  - done.
  - done.
  - unfold authenticated, create_post, save_new_Post. handler_cases.
    match goal with
    | E : findById _ _ = Document _ _ |- _ =>
        apply findById_Document in E as Hg
    end.
    eapply admins_are_members_update; [simpl; reflexivity| |done].
    simpl. by eapply Hinv.
  - unfold authenticated, leave in *. handler_cases;
      match goal with
      | E : findById _ _ = Document _ _ |- _ =>
          apply findById_Document in E as Hg
      end;
      (eapply admins_are_members_update; [simpl; reflexivity| |done]);
      simpl; intros a Ha;
      (apply list_elem_of_filter; split; [|by eapply Hinv]);
      intros ->;
      repeat match goal with
      | E : negb _ = false |- _ =>
          apply negb_false_iff in E; rewrite E in Hleave
      end;
      simpl in Hleave; unfold includes in Hleave;
      by apply bool_decide_eq_false in Hleave.
  - unfold authenticated, join. handler_cases;
      match goal with
      | E : findById _ _ = Document _ _ |- _ =>
          apply findById_Document in E as Hg
      end;
      (eapply admins_are_members_update; [simpl; reflexivity| |done]);
      simpl; intros a Ha; apply elem_of_app; left; by eapply Hinv.
  - unfold authenticated, create_group, save_new_Group.
    handler_cases;
      (eapply admins_are_members_update; [simpl; reflexivity| |done]);
      match goal with
      | E : new_Group _ _ _ _ _ = Some _ |- _ =>
          apply new_Group_Some in E as (_ & _ & -> & ->)
      end; done.
Qed.

Lemma run_admins_are_members cs db :
  admins_are_members db → no_admin_leaves cs db = true →
  admins_are_members (run cs db).
Proof.
  revert db. induction cs as [|c cs IH]; intros db Hinv Hcs; [done|].
  simpl in Hcs. apply andb_true_iff in Hcs as [Hc Hcs].
  apply negb_true_iff in Hc.
  apply (IH (handle c db).1); [by apply handle_admins_are_members|done].
Qed.

(** When no Leave at all is sent by an admin of the group it leaves, every
    id in the [admins] of every group is in its [members]. *)
Lemma admins_are_members_without_admin_leave cs :
  no_admin_leaves cs empty_db = true →
  admins_are_members (run cs empty_db).
Proof.
  apply run_admins_are_members. intros gid g Hg.
  unfold empty_db in Hg. simpl in Hg. by rewrite lookup_empty in Hg.
Qed.

Lemma left_matches_same_group gid a db db' left :
  db_groups db' !! gid = db_groups db !! gid →
  left_matches gid a db left → left_matches gid a db' left.
Proof. unfold left_matches. by intros ->. Qed.

Lemma left_matches_update gid a db db' left left' g g' :
  db_groups db !! gid = Some g →
  db_groups db' !! gid = Some g' →
  Group.admins g' = Group.admins g →
  (a ∈ Group.admins g →
   (a ∈ Group.members g ↔ left = false) →
   (a ∈ Group.members g' ↔ left' = false)) →
  left_matches gid a db left → left_matches gid a db' left'.
Proof.
  intros Hg Hg' Hadm Hmem [_ Hinv]. split; [by rewrite Hg'|].
  intros g0 Hg0 Ha. rewrite Hg' in Hg0. injection Hg0 as <-.
  rewrite Hadm in Ha. apply Hmem; [done|]. by apply Hinv.
Qed.

Lemma handle_left_matches gid a c db left :
  left_matches gid a db left →
  left_matches gid a (handle c db).1 (left_after gid a c db left).
Proof.
  intros Hinv. destruct c; simpl; try done.
  - eapply left_matches_same_group; [|done]. by rewrite register_groups.
  - unfold authenticated, create_post, save_new_Post. handler_cases.
    match goal with
    | E : findById _ _ = Document _ _ |- _ =>
        apply findById_Document in E as Hg
    end.
    destruct (decide (_id = gid)) as [->|Hne].
    + eapply left_matches_update; [done|by simpl; rewrite lookup_insert_eq|
                                   done|done|done].
    + eapply left_matches_same_group; [|done].
      simpl. by rewrite lookup_insert_ne.
  - unfold authenticated, leave, targets.
    destruct (authenticate now req) as [res|user]; [done|].
    destruct (truthy (Body.groupId (body req))) eqn:Ht; simpl;
      [|by rewrite andb_false_r].
    rewrite andb_true_r.
    destruct (findById (db_groups db) (Body.groupId (body req)))
      as [| |gid' g] eqn:Hfind; simpl; try by case_bool_decide.
    apply findById_Document in Hfind as Hg.
    unfold includes.
    destruct (decide (Claims.id user ∈ Group.members g)) as [Hmem|Hmem].
    2: { rewrite (bool_decide_eq_false_2 _ Hmem). simpl.
         case_bool_decide as Hu; [|done]. subst a.
         case_bool_decide; [|done]. by rewrite bool_decide_eq_false_2. }
    rewrite (bool_decide_eq_true_2 _ Hmem). simpl.
    match goal with
    | |- left_matches _ _ _ ?f => set (flag := f)
    end.
    assert (left_matches gid a
              (save_Group gid' (Group.set_members (filter (λ memberId, memberId ≠ Claims.id user)
                            (Group.members g)) g) db) flag)
      as Hstep.
    { subst flag. destruct (decide (gid' = gid)) as [->|Hne].
      - rewrite (bool_decide_eq_true_2 (gid = gid)) by done.
        eapply left_matches_update;
          [done|by simpl; rewrite lookup_insert_eq|done| |done].
        simpl. intros Ha Hiff. rewrite list_elem_of_filter.
        case_bool_decide as Hu.
        + subst a. rewrite bool_decide_eq_true_2 by done. intuition congruence.
        + rewrite <- Hiff. intuition congruence.
      - rewrite (bool_decide_eq_false_2 (gid' = gid)) by done.
        replace (if bool_decide (Claims.id user = a) then None else None)
          with (@None Group.t) by (by case_bool_decide).
        eapply left_matches_same_group; [|done].
        simpl. by rewrite lookup_insert_ne. }
    unfold User_findById. simpl.
    destruct (db_users db !! Claims.id user); simpl;
      (eapply left_matches_same_group; [|exact Hstep]); done.
  - unfold authenticated, join, targets.
    destruct (authenticate now req) as [res|user]; [done|].
    destruct (truthy (Body.groupId (body req))) eqn:Ht; simpl;
      [|by rewrite andb_false_r].
    rewrite andb_true_r.
    destruct (findById (db_groups db) (Body.groupId (body req)))
      as [| |gid' g] eqn:Hfind; simpl; try by case_bool_decide.
    apply findById_Document in Hfind as Hg.
    unfold includes.
    destruct (decide (Claims.id user ∈ Group.members g)) as [Hmem|Hmem].
    { rewrite (bool_decide_eq_true_2 _ Hmem). simpl.
      case_bool_decide as Hu; [|done]. subst a.
      case_bool_decide; [|done]. by rewrite bool_decide_eq_true_2. }
    rewrite (bool_decide_eq_false_2 _ Hmem). simpl.
    match goal with
    | |- left_matches _ _ _ ?f => set (flag := f)
    end.
    assert (left_matches gid a
              (save_Group gid' (Group.set_members (Group.members g ++ [Claims.id user]) g) db) flag)
      as Hstep.
    { subst flag. destruct (decide (gid' = gid)) as [->|Hne].
      - rewrite (bool_decide_eq_true_2 (gid = gid)) by done.
        eapply left_matches_update;
          [done|by simpl; rewrite lookup_insert_eq|done| |done].
        simpl. intros Ha Hiff. rewrite elem_of_app, list_elem_of_singleton.
        case_bool_decide as Hu.
        + subst a. rewrite bool_decide_eq_false_2 by done. intuition congruence.
        + rewrite <- Hiff. intuition congruence.
      - rewrite (bool_decide_eq_false_2 (gid' = gid)) by done.
        replace (if bool_decide (Claims.id user = a) then None else None)
          with (@None Group.t) by (by case_bool_decide).
        eapply left_matches_same_group; [|done].
        simpl. by rewrite lookup_insert_ne. }
    unfold User_findById. simpl.
    destruct (db_users db !! Claims.id user); simpl;
      (eapply left_matches_same_group; [|exact Hstep]); done.
  - unfold authenticated, create_group, save_new_Group. handler_cases;
      match goal with
      | E : new_Group _ _ _ _ _ = Some _ |- _ =>
          apply new_Group_Some in E as (_ & _ & Hmem & Hadm)
      end;
      match goal with
      | E : bool_decide (is_Some _) = false |- _ =>
          apply bool_decide_eq_false in E as Hfresh
      end;
      (destruct (decide (oid = gid)) as [->|Hne];
       [|eapply left_matches_same_group; [|done];
         simpl; by rewrite lookup_insert_ne]);
      destruct Hinv as [Hstored Hinv];
      (assert (left = false) as ->
         by (destruct left; [by destruct Hfresh; apply Hstored|done]));
      (split; [done|]); simpl; intros g0; rewrite lookup_insert_eq;
      intros [= <-]; rewrite Hmem, Hadm; done.
Qed.

Lemma run_left_matches gid a cs db left :
  left_matches gid a db left →
  left_matches gid a (run cs db) (has_left gid a cs db left).
Proof.
  revert db left. induction cs as [|c cs IH]; intros db left Hinv; [done|].
  apply (IH (handle c db).1). by apply handle_left_matches.
Qed.

(** C1, as the code has it: in every state reached from the empty database
    by any sequence of requests, an id in the [admins] of a group is in its
    [members] exactly when that user has not left the group, that is, has
    not sent a Leave that took them out of its [members] without joining it
    again afterwards. *)
Theorem admin_is_member_unless_left cs gid g a :
  db_groups (run cs empty_db) !! gid = Some g →
  a ∈ Group.admins g →
  (a ∈ Group.members g ↔ has_left gid a cs empty_db false = false).
Proof.
  intros Hg Ha.
  destruct (run_left_matches gid a cs empty_db false) as [_ Hinv].
  - split; [done|]. intros g0 Hg0. unfold empty_db in Hg0. simpl in Hg0.
    by rewrite lookup_empty in Hg0.
  - by apply Hinv.
Qed.

Lemma usernames_unique_same_users db db' :
  db_users db' = db_users db → usernames_unique db → usernames_unique db'.
Proof. unfold usernames_unique. by intros ->. Qed.

Lemma usernames_unique_update db db' uid u u' :
  db_users db' = <[uid := u']> (db_users db) →
  db_users db !! uid = Some u →
  User.username u' = User.username u →
  usernames_unique db → usernames_unique db'.
Proof.
  unfold usernames_unique. intros -> Hu Hname Huniq i j v w.
  rewrite !lookup_insert_Some.
  intros [[<- <-] | [Hi Hv]] [[<- <-] | [Hj Hw]] Heq; try done.
  - eapply Huniq; eauto. congruence.
  - eapply Huniq; eauto. congruence.
  - by eapply Huniq.
Qed.

Lemma empty_db_usernames_unique : usernames_unique empty_db.
Proof.
  intros i j u v Hu. unfold empty_db in Hu. simpl in Hu.
  by rewrite lookup_empty in Hu.
Qed.

(** Every handler keeps the unique index on [username]. *)
Lemma handle_usernames_unique c db :
  usernames_unique db → usernames_unique (handle c db).1.
Proof.
  intros Huniq. destruct c; simpl; [by apply register_unique|done|done|..];
    unfold authenticated, create_post, save_new_Post, leave, join,
      create_group, save_new_Group;
    handler_cases;
    first
      [ eapply usernames_unique_same_users; [simpl; reflexivity|done]
      | eapply usernames_unique_update;
          [simpl; reflexivity|eassumption|done|done] ].
Qed.

(** The unique index holds in every state reached from the empty
    database. *)
Lemma run_usernames_unique cs db :
  usernames_unique db → usernames_unique (run cs db).
Proof.
  revert db. induction cs as [|c cs IH]; intros db Huniq; [done|].
  apply (IH (handle c db).1). by apply handle_usernames_unique.
Qed.

(** No handler removes a user document. *)
Lemma handle_keeps_users c db (uid : string) :
  is_Some (db_users db !! uid) → is_Some (db_users (handle c db).1 !! uid).
Proof.
  intros Hu. destruct c; simpl; try done.
  - unfold register, save_new_User. handler_cases.
    rewrite lookup_insert_is_Some'. by right.
  - unfold authenticated, create_post, save_new_Post. handler_cases.
  - unfold authenticated, leave. handler_cases.
    rewrite lookup_insert_is_Some'. by right.
  - unfold authenticated, join. handler_cases.
    rewrite lookup_insert_is_Some'. by right.
  - unfold authenticated, create_group, save_new_Group. handler_cases.
    rewrite lookup_insert_is_Some'. by right.
Qed.

(** The user a login issued a token for is still stored after any further
    requests. *)
Lemma logged_in_user_persists now req db cs c payload signature :
  cookie (login now req db) = Some c →
  cookie_value c = JwtSigned payload signature →
  is_Some (db_users (run cs db) !! Claims.id payload).
Proof.
  intros Hcookie Hvalue.
  assert (is_Some (db_users db !! Claims.id payload)) as Hu.
  { unfold login, jwt_sign in Hcookie.
    destruct (Body.username (body req)) as [s|]; [|done].
    destruct (User_findOne _ _) as [[uid u]|] eqn:Hfind; [|done].
    apply User_findOne_Some in Hfind as [Hu _].
    handler_cases. }
  clear Hcookie Hvalue. revert db Hu.
  induction cs as [|x cs IH]; intros db Hu; [done|].
  apply (IH (handle x db).1). by apply handle_keeps_users.
Qed.

End Properties.

(** * Scenarios on the platform [Demo] *)

Section Scenarios.
Local Existing Instance Demo.platform.
Local Existing Instance Demo.schema_cast.
Import Demo.

(** bob, a member of the club but not an admin, posts an event to it. *)
Lemma create_post_requires_admin_witness :
  let req :=
    with_token bob_token
      (post_body club_id "Meetup" true (Some "1700000000000") (Some "Park")) in
  authenticate 5000 req = inr bob_claims
  ∧ findById (db_groups db_club) (Body.group (body req)) = Document club_id club
  ∧ (bob_id ∉ Group.admins club)
  ∧ authenticated 5000 (create_post 5000 post_id) req db_club
    = (db_club, reply 403 "You must be an admin to post in this group.").
Proof.
  intros req.
  assert (authenticate 5000 req = inr bob_claims) as Hauth
    by (vm_compute; reflexivity).
  assert (findById (db_groups db_club) (Body.group (body req))
          = Document club_id club) as Hfind by (vm_compute; reflexivity).
  assert (bob_id ∉ Group.admins club) as Hadm
    by (apply (bool_decide_unpack _); vm_compute; exact I).
  do 3 (split; [assumption|]).
  destruct (create_post_requires_admin 5000 post_id req db_club bob_claims
              Hauth) as [_ Hpresent].
  destruct Hpresent as [_ Hforbidden];
    [reflexivity|reflexivity|intros _; split; reflexivity|].
  exact (Hforbidden club_id club Hfind Hadm).
Defined.

(** alice, the admin of the club, posts an event without a date. *)
Lemma create_post_event_needs_date_and_location_witness :
  let req :=
    with_token alice_token
      (post_body club_id "Meetup" true None (Some "Park")) in
  authenticate 5000 req = inr alice_claims
  ∧ alice_id ∈ Group.admins club
  ∧ authenticated 5000 (create_post 5000 post_id) req db_club
    = (db_club, reply 400 "Required fields are missing.").
Proof.
  intros req.
  assert (authenticate 5000 req = inr alice_claims) as Hauth
    by (vm_compute; reflexivity).
  split; [assumption|].
  split; [apply (bool_decide_unpack _); vm_compute; exact I|].
  apply (create_post_event_needs_date_and_location 5000 post_id req db_club
           alice_claims Hauth); [reflexivity|left; reflexivity].
Defined.

(** bob, already a member of the club, joins it again. *)
Lemma join_twice_conflict_witness :
  let req := with_token bob_token (groupId_body club_id) in
  let result := authenticated 6000 join req db_club in
  authenticate 6000 req = inr bob_claims
  ∧ result.1 = db_club
  ∧ status result.2 = 400
  ∧ result.2 = reply 400 "User is already a member of this group.".
Proof.
  intros req result.
  assert (authenticate 6000 req = inr bob_claims) as Hauth
    by (vm_compute; reflexivity).
  split; [assumption|].
  destruct (join_twice_conflict 6000 req db_club bob_claims club_id club Hauth)
    as (Hdb & Hst & Hmsg).
  - vm_compute; reflexivity.
  - apply (bool_decide_unpack _); vm_compute; exact I.
  - split; [exact Hdb|]. split; [exact Hst|]. apply Hmsg. reflexivity.
Defined.

(** alice, just registered, creates the club. *)
Lemma create_group_effect_witness :
  let req := with_token alice_token (group_body "Book Club" "Readers") in
  let result := authenticated 2000 (create_group club_id) req db_alice in
  let group :=
    Group.mk "Book Club" "Readers" None [] [alice_id] [alice_id] in
  status result.2 = 201
  ∧ sent result.2 = MessageGroup "Group created successfully." club_id group
  ∧ db_groups result.1 !! club_id = Some group
  ∧ (User.groups <$> db_users result.1 !! alice_id) = Some [club_id]
  ∧ (User.board_groups <$> db_users result.1 !! alice_id) = Some [club_id].
Proof.
  intros req result group.
  destruct (create_group_effect 2000 club_id req db_alice alice_claims
              (User.mk "Alice" "alice" "$2b$10$pw" [] [] false))
    as (name & description & Hname & Hdescription & Hresult);
    [vm_compute; reflexivity|reflexivity|reflexivity|vm_compute; reflexivity
    |vm_compute; reflexivity|].
  injection Hname as <-. injection Hdescription as <-.
  subst result. rewrite Hresult. simpl.
  rewrite !lookup_insert_eq. done.
Defined.

(** C7, at a group id written in upper case: bob, a member of the club,
    sends a Leave whose [groupId] is the club's id in upper-case
    hexadecimal digits. The cast finds the club, bob is taken out of its
    [members] and the request is answered 200, but the strings compared in
    the filter of the caller's [groups] differ, and the club's id stays in
    bob's [groups]. *)
Theorem leave_upper_case_groupId_keeps_group :
  let req := with_token bob_token (groupId_body club_id_upper) in
  let result := authenticated 5000 leave req db_club in
  authenticate 5000 req = inr bob_claims
  ∧ findById (db_groups db_club) (Body.groupId (body req))
    = Document club_id club
  ∧ (User.groups <$> db_users db_club !! bob_id) = Some [club_id]
  ∧ result.2 = reply 200 "User left the group successfully."
  ∧ (Group.members <$> db_groups result.1 !! club_id) = Some [alice_id]
  ∧ (User.groups <$> db_users result.1 !! bob_id) = Some [club_id].
Proof.
  repeat split; vm_compute; reflexivity.
Qed.

(** The same Leave with the id as the ObjectId prints it empties bob's
    [groups]; alice's [admins] and [board_groups] entries are not touched by
    her own Leave. *)
Example leave_lower_case_groupId :
  let result := handle bob_leaves db_club in
  result.2 = reply 200 "User left the group successfully."
  ∧ (Group.members <$> db_groups result.1 !! club_id) = Some [alice_id]
  ∧ (User.groups <$> db_users result.1 !! bob_id) = Some [].
Proof.
  repeat split; vm_compute; reflexivity.
Qed.

(** C10 fails on the code: a request whose [isEvent] is the string
    "false" is truthy for the guard, and the post is stored, with [isEvent]
    false, and answered 201. *)
Lemma legacy_post_stored_with_isEvent_false :
  let b := legacy_body "Hello" club_id (Some (JString "false")) "mallory" in
  let result := create_post_legacy 5000 post_id b empty_db in
  let post :=
    Post.mk "Hello" None club_id false None None None "mallory" 5000 in
  LegacyBody.isEvent b ≠ Some (JBool true)
  ∧ result.2
    = mkResponse 201 (MessagePost "Post created successfully." post_id post)
        None
  ∧ db_posts result.1 !! post_id = Some post
  ∧ Post.isEvent post = false.
Proof.
  repeat split; try discriminate; vm_compute; reflexivity.
Qed.

(** A request with [isEvent] false is refused; one with [isEvent] true, no
    date, no location and the id of no group is stored. *)
Lemma create_post_legacy_needs_truthy_isEvent_witness :
  let plain := legacy_body "Hello" club_id (Some (JBool false)) "mallory" in
  let event := legacy_body "Meetup" club_id (Some (JBool true)) "mallory" in
  let post :=
    Post.mk "Meetup" None club_id true None None None "mallory" 5000 in
  create_post_legacy 5000 post_id plain empty_db
  = (empty_db, reply 400 "Name, group, and event status are required.")
  ∧ db_groups empty_db !! club_id = None
  ∧ create_post_legacy 5000 post_id event empty_db
    = (mkDB ∅ ∅ {[ post_id := post ]},
       mkResponse 201
         (MessagePost "Post created successfully." post_id post) None)
  ∧ js_truthy (LegacyBody.isEvent event) = true.
Proof.
  intros plain event post.
  destruct (create_post_legacy_needs_truthy_isEvent 5000 post_id plain
              empty_db) as (Hrefused & _ & _ & _).
  destruct (create_post_legacy_needs_truthy_isEvent 5000 post_id event
              empty_db) as (_ & _ & Honly & Hstored).
  split; [apply Hrefused; reflexivity|].
  split; [reflexivity|].
  assert (create_post_legacy 5000 post_id event empty_db
          = (mkDB ∅ ∅ {[ post_id := post ]},
             mkResponse 201
               (MessagePost "Post created successfully." post_id post) None))
    as Hresult.
  { apply (Hstored "Meetup" None club_id true None None None "mallory");
      try reflexivity; try discriminate; vm_compute; reflexivity. }
  split; [exact Hresult|].
  apply Honly. right. rewrite Hresult. reflexivity.
Defined.

(** alice logs in with her password at clock 1000 ms. *)
Lemma login_token_verifies_witness :
  let req := anonymous (login_body "alice" "pw") in
  let req' := with_token alice_token Body.empty in
  status (login 1000 req db_alice) = 200
  ∧ (cookie_value <$> cookie (login 1000 req db_alice)) = Some alice_token
  ∧ alice_token
    = JwtSigned alice_claims
        "s3cret|64b0c0ffee0123456789abcd|alice|Alice|1|86401"
  ∧ verify 86400999 req' = mkResponse 200 (Identity alice_id "alice" "Alice") None
  ∧ verify 86401000 req' = reply 401 "Invalid token."
  ∧ verify 2000
      (mkRequest
         (Some (JwtSigned (Claims.mk bob_id "alice" "Alice" 1 86401)
                  "s3cret|64b0c0ffee0123456789abcd|alice|Alice|1|86401"))
         Body.empty)
    = reply 401 "Invalid token.".
Proof.
  intros req req'.
  assert (status (login 1000 req db_alice) = 200) as Hok
    by (vm_compute; reflexivity).
  split; [exact Hok|].
  destruct (login_token_verifies 1000 req db_alice Hok)
    as (uid & u & secret & Hu & Hname & _ & Hsecret & Hlogin & Hvalid
        & Hexpired & Htampered & _).
  injection Hsecret as <-.
  assert (uid = alice_id
          ∧ u = User.mk "Alice" "alice" "$2b$10$pw" [] [] false) as [-> ->].
  { assert (User.username u = "alice") as Hn by (injection Hname; done).
    assert (db_users db_alice !! alice_id
            = Some (User.mk "Alice" "alice" "$2b$10$pw" [] [] false)) as Ha
      by (vm_compute; reflexivity).
    assert (uid = alice_id) as ->.
    { eapply (run_usernames_unique [register_alice] empty_db);
        [apply empty_db_usernames_unique|eassumption..]. }
    split; [done|congruence]. }
  split; [rewrite Hlogin; reflexivity|].
  split; [reflexivity|].
  split; [apply (Hvalid 86400999%Z Body.empty); reflexivity|].
  split; [apply (Hexpired 86401000%Z Body.empty); discriminate|].
  apply (Htampered 2000%Z Body.empty). discriminate.
Defined.

(** C5 fails on the code: with alice registered, a login as the unknown
    "bob" and a login as "alice" with a wrong password are both refused,
    with different statuses and messages. *)
Lemma login_failure_reveals_cause :
  let unknown := anonymous (login_body "bob" "pw") in
  let wrong := anonymous (login_body "alice" "wrong") in
  (∀ i u, db_users db_alice !! i = Some u → User.username u ≠ "bob")
  ∧ (∃ i u, db_users db_alice !! i = Some u ∧ User.username u = "alice"
            ∧ bcrypt_compare "wrong" (User.password u) = false)
  ∧ login 1000 unknown db_alice = reply 404 "User not found."
  ∧ login 1000 wrong db_alice = reply 401 "Invalid credentials."
  ∧ login 1000 unknown db_alice ≠ login 1000 wrong db_alice.
Proof.
  intros unknown wrong.
  split; [apply User_findOne_None; vm_compute; reflexivity|].
  split.
  { exists alice_id, (User.mk "Alice" "alice" "$2b$10$pw" [] [] false).
    repeat split; vm_compute; reflexivity. }
  assert (login 1000 unknown db_alice = reply 404 "User not found.") as ->
    by (vm_compute; reflexivity).
  assert (login 1000 wrong db_alice = reply 401 "Invalid credentials.") as ->
    by (vm_compute; reflexivity).
  repeat split; discriminate.
Qed.

(** The two refusals of the scenario above, from the general statement. *)
Lemma login_failure_responses_witness :
  let unknown := anonymous (login_body "bob" "pw") in
  let wrong := anonymous (login_body "alice" "wrong") in
  login 1000 unknown db_alice = reply 404 "User not found."
  ∧ login 1000 wrong db_alice = reply 401 "Invalid credentials.".
Proof.
  intros unknown wrong. split.
  - destruct (login_failure_responses 1000 unknown db_alice "bob")
      as (Hunknown & _ & _); [reflexivity|].
    apply Hunknown. apply User_findOne_None. vm_compute; reflexivity.
  - destruct (login_failure_responses 1000 wrong db_alice "alice")
      as (_ & Hwrong & _); [reflexivity|].
    apply (Hwrong alice_id (User.mk "Alice" "alice" "$2b$10$pw" [] [] false)
             "wrong").
    + apply run_usernames_unique, empty_db_usernames_unique.
    + vm_compute; reflexivity.
    + reflexivity.
    + reflexivity.
    + vm_compute; reflexivity.
Defined.

(** alice registers twice, the second time with another password. *)
Lemma register_twice_conflict_witness :
  let req1 := anonymous (register_body "alice" "Alice" "pw") in
  let req2 := anonymous (register_body "alice" "Alice again" "other") in
  let first := register "salt" alice_id req1 empty_db in
  let second := register "pepper" bob_id req2 first.1 in
  first.2 = reply 201 "User registered successfully."
  ∧ second.2 = reply 400 "Username already exists."
  ∧ size (users_named "alice" second.1) = 1.
Proof.
  intros req1 req2 first second.
  destruct (register_twice_conflict "salt" alice_id "pepper" bob_id req1 req2
              empty_db "alice") as (Hsecond & Hone & Hfirst);
    [apply empty_db_usernames_unique|reflexivity|reflexivity|reflexivity
    |discriminate|reflexivity..|].
  split; [apply Hfirst; vm_compute; reflexivity|].
  split; [exact Hsecond|exact Hone].
Defined.

(** C1 fails on the code: alice registers, creates the club and leaves it.
    The Leave is answered 200 and the club is left with alice in [admins]
    and nobody in [members]. The same holds without the registration, where
    the two requests are answered 500 after the group has been saved. *)
Lemma admin_leave_breaks_admins_are_members :
  let before := run [register_alice; alice_creates_club] empty_db in
  let after := run [register_alice; alice_creates_club; alice_leaves] empty_db in
  (handle alice_leaves before).2 = reply 200 "User left the group successfully."
  ∧ db_groups after !! club_id
    = Some (Group.mk "Book Club" "Readers" None [] [] [alice_id])
  ∧ ¬ admins_are_members after
  ∧ ¬ admins_are_members (run [alice_creates_club; alice_leaves] empty_db).
Proof.
  intros before after.
  assert (∀ db, db_groups db !! club_id
                = Some (Group.mk "Book Club" "Readers" None [] [] [alice_id]) →
                ¬ admins_are_members db) as Hbreaks.
  { intros db Hclub Hinv.
    specialize (Hinv club_id _ Hclub alice_id). simpl in Hinv.
    apply (not_elem_of_nil alice_id), Hinv, list_elem_of_here. }
  split; [vm_compute; reflexivity|].
  split; [vm_compute; reflexivity|].
  split; apply Hbreaks; vm_compute; reflexivity.
Qed.

(** alice leaves her club and joins it again; bob's club is not touched by
    alice's Leave. *)
Lemma admin_is_member_unless_left_witness :
  let left :=
    [register_alice; register_bob; alice_creates_club; bob_creates_club2;
     alice_leaves] in
  let back := left ++ [alice_joins] in
  has_left club2_id bob_id left empty_db false = false
  ∧ (Group.members <$> db_groups (run left empty_db) !! club2_id)
    = Some [bob_id]
  ∧ has_left club_id alice_id left empty_db false = true
  ∧ has_left club_id alice_id back empty_db false = false
  ∧ alice_id
    ∈ Group.members
        (Group.mk "Book Club" "Readers" None [] [alice_id] [alice_id]).
Proof.
  intros left back.
  assert (db_groups (run back empty_db) !! club_id
          = Some (Group.mk "Book Club" "Readers" None [] [alice_id]
                    [alice_id])) as Hclub by (vm_compute; reflexivity).
  assert (has_left club_id alice_id back empty_db false = false) as Hback
    by (vm_compute; reflexivity).
  split; [vm_compute; reflexivity|].
  split; [vm_compute; reflexivity|].
  split; [vm_compute; reflexivity|].
  split; [exact Hback|].
  apply (admin_is_member_unless_left back club_id _ alice_id Hclub);
    [apply list_elem_of_here|exact Hback].
Defined.

(** bob joins the club and leaves it again; alice, its admin, stays. *)
Lemma admins_are_members_without_admin_leave_witness :
  let cs :=
    [register_alice; register_bob; alice_creates_club; bob_joins; bob_leaves] in
  no_admin_leaves cs empty_db = true
  ∧ admins_are_members (run cs empty_db)
  ∧ db_groups (run cs empty_db) !! club_id
    = Some (Group.mk "Book Club" "Readers" None [] [alice_id] [alice_id]).
Proof.
  intros cs.
  assert (no_admin_leaves cs empty_db = true) as Hcs
    by (vm_compute; reflexivity).
  split; [exact Hcs|].
  split; [exact (admins_are_members_without_admin_leave cs Hcs)|].
  vm_compute; reflexivity.
Defined.

End Scenarios.

(** * Further properties of the handlers, for every platform *)

Section Coverage.
Context `{Platform}.
Implicit Types (db : DB) (req : Request) (user : Claims.t) (now : Z).

Ltac branches :=
  unfold User_findById in *; repeat (case_match; simplify_eq/=; try done).

Ltac found :=
  repeat match goal with
  | E : findById _ _ = Document _ _ |- _ => apply findById_Document in E
  | E : negb _ = false |- _ => apply negb_false_iff in E
  | E : negb _ = true |- _ => apply negb_true_iff in E
  | E : includes _ _ = true |- _ => apply bool_decide_eq_true in E
  | E : includes _ _ = false |- _ => apply bool_decide_eq_false in E
  | E : bool_decide (is_Some _) = false |- _ =>
      apply bool_decide_eq_false in E; rewrite <- eq_None_not_Some in E
  end.

(** ** The writes of a handler *)

Lemma new_Post_group now name description group isEvent date location
    photoUrl username post :
  new_Post now name description group isEvent date location photoUrl username
  = Some post →
  group ≫= castObjectId = Some (Post.group post)
  ∧ required name = Some (Post.name post)
  ∧ required username = Some (Post.username post)
  ∧ isEvent = Some (Post.isEvent post)
  ∧ Post.creationDate post = now.
Proof.
  unfold new_Post.
  destruct (required name), (group ≫= castObjectId), isEvent,
    (cast_date_path date), (required username); simpl; try done.
  by intros [= <-].
Qed.

Lemma findById_cast {A : Type} (coll : gmap ObjectId A) id gid doc :
  findById coll id = Document gid doc → id ≫= castObjectId = Some gid.
Proof.
  unfold findById. destruct id as [s|]; [|done]. simpl.
  destruct (castObjectId s) as [oid|]; [|done].
  destruct (coll !! oid); [|done]. by intros [= <- <-].
Qed.

Lemma new_User_Some username displayName password u :
  new_User username displayName password = Some u →
  ∃ s d p, required username = Some s ∧ required displayName = Some d
           ∧ required password = Some p
           ∧ u = User.mk d s p [] [] false.
Proof.
  unfold new_User.
  destruct (required username) as [s|], (required displayName) as [d|],
    (required password) as [p|]; simpl; try done.
  intros [= <-]. by exists s, d, p.
Qed.

Lemma required_nonempty v (s : string) : required v = Some s → s ≠ "".
Proof.
  destruct v as [x|]; [|done]. simpl. case_bool_decide; [done|].
  by intros [= <-].
Qed.

Lemma new_Group_shape name description photoUrl members admins g :
  new_Group name description photoUrl members admins = Some g →
  g = Group.mk (Group.name g) (Group.description g) photoUrl [] members admins.
Proof.
  unfold new_Group.
  destruct (required name), (required description); simpl; try done.
  by intros [= <-].
Qed.

Lemma handle_change c db : change db (handle c db).1.
Proof.
  destruct c; simpl; try apply change_nothing.
  - unfold register, save_new_User. branches; try apply change_nothing.
    match goal with
    | E : new_User _ _ _ = Some _ |- _ =>
        apply new_User_Some in E as (s & d & p & Hs & _ & _ & ->)
    end.
    match goal with
    | E : _ || _ = false |- _ => apply orb_false_iff in E as [Hid Htaken]
    end.
    found. apply change_register; [done..|by eapply required_nonempty].
  - unfold authenticated, create_post, save_new_Post.
    branches; try apply change_nothing.
    match goal with
    | E : findById _ _ = Document _ _ |- _ =>
        pose proof (findById_cast _ _ _ _ E) as Hcast
    end.
    match goal with
    | E : new_Post _ _ _ _ _ _ _ _ _ = Some _ |- _ =>
        apply new_Post_group in E as (Hgroup & _)
    end.
    found. apply change_post; [done..|congruence].
  - unfold authenticated, leave. branches; try apply change_nothing; found.
    + by apply change_leave.
    + by apply change_leave_group.
  - unfold authenticated, join. branches; try apply change_nothing; found.
    + by apply change_join.
    + by apply change_join_group.
  - unfold authenticated, create_group, save_new_Group.
    branches; try apply change_nothing;
      match goal with
      | E : new_Group _ _ _ _ _ = Some _ |- _ =>
          rewrite (new_Group_shape _ _ _ _ _ _ E)
      end; found.
    + by apply change_create.
    + by apply change_create_group.
Qed.

(** A property every write keeps holds after any sequence of requests. *)
Lemma run_change (P : DB → Prop) :
  (∀ db db', change db db' → P db → P db') →
  ∀ cs db, P db → P (run cs db).
Proof.
  intros Hstep cs. induction cs as [|c cs IH]; intros db HP; [done|].
  apply (IH (handle c db).1), (Hstep db); [apply handle_change|done].
Qed.

Ltac writes :=
  unfold save_User, save_Group, with_users, with_groups, with_posts in *;
  simpl in *.

(** ** Invariants of the reachable states *)


Lemma change_no_site_admin db db' :
  change db db' → no_site_admin db → no_site_admin db'.
Proof.
  intros Hch Hinv. unfold no_site_admin in *.
  destruct Hch; writes; try done; intros uid' u';
    rewrite lookup_insert_Some; (intros [[<- <-] | [_ Hold]]; [|by eauto]);
    simpl; by eauto.
Qed.

Lemma change_user_groups_stored db db' :
  change db db' → user_groups_stored db → user_groups_stored db'.
Proof.
  intros Hch Hinv. unfold user_groups_stored in *.
  destruct Hch; writes; try done; intros uid' u' x;
    rewrite ?lookup_insert_Some, ?lookup_insert_is_Some'.
  - intros [[<- <-] | [_ Hold]]; [by intros ?%elem_of_nil|by eauto].
  - intros Hu Hx. right. by eauto.
  - intros Hu Hx. right. by eauto.
  - intros [[<- <-] | [_ Hold]]; simpl.
    + rewrite <- (assoc (++)), !elem_of_app, list_elem_of_singleton.
      intros [Hx | [-> | Hx]]; [right|by left|right];
        eapply Hinv; eauto; rewrite elem_of_app; eauto.
    + intros Hx. right. by eauto.
  - intros Hu Hx. right. by eauto.
  - intros [[<- <-] | [_ Hold]]; simpl.
    + rewrite elem_of_app, list_elem_of_filter.
      intros [[_ Hx] | Hx]; right; eapply Hinv; eauto;
        rewrite elem_of_app; eauto.
    + intros Hx. right. by eauto.
  - intros Hu Hx. right. by eauto.
  - intros [[<- <-] | [_ Hold]]; simpl.
    + rewrite !elem_of_app, !list_elem_of_singleton.
      intros [[Hx | ->] | [Hx | ->]]; [right|by left|right|by left];
        eapply Hinv; eauto; rewrite elem_of_app; eauto.
    + intros Hx. right. by eauto.
Qed.

Lemma change_group_posts_stored db db' :
  change db db' → group_posts_stored db → group_posts_stored db'.
Proof.
  intros Hch Hinv. unfold group_posts_stored in *.
  destruct Hch; writes; try done; intros gid' g';
    rewrite lookup_insert_Some;
    (intros [[<- <-] | [Hne Hold]]; simpl;
     [try (match goal with
           | E : db_groups _ !! _ = Some _ |- _ =>
               destruct (Hinv _ _ E) as [Hnodup Hstored]
           end)
     |try (destruct (Hinv _ _ Hold) as [Hnodup Hstored])]);
    try done.
  - assert (oid ∉ Group.posts g) as Hfresh.
    { intros (p & Hp & _)%Hstored. congruence. }
    split.
    + apply NoDup_app. split; [done|]. split; [|apply NoDup_singleton].
      intros x Hx ->%list_elem_of_singleton. done.
    + intros pid [Hpid | ->%list_elem_of_singleton]%elem_of_app.
      * destruct (Hstored pid Hpid) as (p & Hp & Hg).
        exists p. rewrite lookup_insert_ne; [done|congruence].
      * exists post. by rewrite lookup_insert_eq.
  - split; [done|]. intros pid Hpid.
    destruct (Hstored pid Hpid) as (p & Hp & Hg).
    exists p. rewrite lookup_insert_ne; [done|congruence].
  - split; [apply NoDup_nil_2|]. by intros pid ?%elem_of_nil.
  - split; [apply NoDup_nil_2|]. by intros pid ?%elem_of_nil.
Qed.

Lemma keeps_refl db : keeps db db.
Proof.
  repeat split; [done|..]; intros k x Hx; exists x; by repeat split.
Qed.

Lemma keeps_trans db1 db2 db3 : keeps db1 db2 → keeps db2 db3 → keeps db1 db3.
Proof.
  intros (Hp1 & Hg1 & Hu1) (Hp2 & Hg2 & Hu2). repeat split.
  - by eauto.
  - intros gid g (g2 & Hg & ? & ? & ? & ? & ?)%Hg1.
    destruct (Hg2 _ _ Hg) as (g3 & ? & ? & ? & ? & ? & ?).
    exists g3. repeat split; try congruence. by etrans.
  - intros uid u (u2 & Hu & ? & ? & ? & ? & ?)%Hu1.
    destruct (Hu2 _ _ Hu) as (u3 & ? & ? & ? & ? & ? & ?).
    exists u3. repeat split; try congruence. by etrans.
Qed.

Lemma change_keeps db db' : change db db' → keeps db db'.
Proof.
  intros Hch. destruct Hch; [apply keeps_refl|..]; writes;
    (split; [|split]); simpl.
  all: try (intros k x Hx; by eauto).
  all: try (intros k x Hx; exists x; by repeat split).
  all: intros k x Hx;
    try (destruct (decide (k = oid)) as [->|]; [congruence|]);
    try (by rewrite lookup_insert_ne by done);
    try (rewrite lookup_insert_ne by done; exists x; by repeat split).
  all: try (destruct (decide (k = gid)) as [->|];
            [rewrite lookup_insert_eq; simplify_eq; eexists;
             repeat split; simpl; try done; by apply prefix_app_r
            |rewrite lookup_insert_ne by done; exists x; by repeat split]).
  all: try (destruct (decide (k = userId)) as [->|];
            [rewrite lookup_insert_eq; simplify_eq; eexists;
             repeat split; simpl; try done; by apply prefix_app_r
            |rewrite lookup_insert_ne by done; exists x; by repeat split]).
Qed.


(** X2: in every state reached from the empty database the [posts] of a
    group lists, without repetition, ids of stored posts whose [group] is
    that group. *)
Theorem reachable_group_posts_stored cs :
  group_posts_stored (run cs empty_db).
Proof.
  apply (run_change group_posts_stored); [apply change_group_posts_stored|].
  intros gid g Hg. unfold empty_db in Hg. simpl in Hg.
  by rewrite lookup_empty in Hg.
Qed.

(** X3: in every state reached from the empty database the [groups] and
    [board_groups] of a user hold only ids of stored groups. *)
Theorem reachable_user_groups_stored cs :
  user_groups_stored (run cs empty_db).
Proof.
  apply (run_change user_groups_stored); [apply change_user_groups_stored|].
  intros uid u gid Hu. unfold empty_db in Hu. simpl in Hu.
  by rewrite lookup_empty in Hu.
Qed.

(** X4: no sequence of requests makes a site admin: in every state reached
    from the empty database [site_admin] is false for every user. *)
Theorem reachable_no_site_admin cs :
  no_site_admin (run cs empty_db).
Proof.
  apply (run_change no_site_admin); [apply change_no_site_admin|].
  intros uid u Hu. unfold empty_db in Hu. simpl in Hu.
  by rewrite lookup_empty in Hu.
Qed.

(** X5: no sequence of requests deletes or rewrites what is stored: a post
    stays as it is; a group keeps its name, description, photo and admins,
    and its [posts] is only extended; a user keeps username, displayName,
    password hash and flag, and its [board_groups] is only extended. *)
Theorem run_keeps cs db : keeps db (run cs db).
Proof.
  revert db. induction cs as [|c cs IH]; intros db; [apply keeps_refl|].
  apply (keeps_trans _ (handle c db).1); [|apply IH].
  apply change_keeps, handle_change.
Qed.

(** X6: in every state reached from the empty database no two users have
    the same username. *)
Theorem reachable_usernames_unique cs :
  usernames_unique (run cs empty_db).
Proof. apply run_usernames_unique, empty_db_usernames_unique. Qed.

(** X7: a request answered with a 4xx status changes nothing: every handler
    finishes its checks before its first write. *)
Theorem client_errors_change_nothing c db :
  400 ≤ status (handle c db).2 < 500 →
  (handle c db).1 = db.
Proof.
  destruct c; simpl; try done.
  - unfold register, save_new_User. branches; simpl; lia.
  - unfold authenticated, create_post, save_new_Post. branches; simpl; lia.
  - unfold authenticated, leave. branches; simpl; lia.
  - unfold authenticated, join. branches; simpl; lia.
  - unfold authenticated, create_group, save_new_Group.
    branches; simpl; lia.
Qed.

(** ** Sessions *)

(** When the middleware lets a request through. *)
Lemma authenticate_inr now req user :
  authenticate now req = inr user ↔
  ∃ secret,
    usable_secret = Some secret
    ∧ authToken req = Some (JwtSigned user (hmac secret user))
    ∧ (now `div` 1000 < Claims.exp user)%Z.
Proof.
  unfold authenticate, jwt_verify. split.
  - destruct (authToken req) as [[raw|payload signature]|]; simpl;
      [by destruct (bool_decide (raw = ""))| |done].
    destruct usable_secret as [secret|]; [|done].
    case_bool_decide; simpl; [|done].
    case_bool_decide; simpl; [done|].
    intros [= <-]. exists secret. subst. split; [done|]. split; [done|lia].
  - intros (secret & -> & -> & Hexp). simpl.
    rewrite bool_decide_eq_true_2 by done. simpl.
    by rewrite bool_decide_eq_false_2 by lia.
Qed.

(** X8: the token a login sets as cookie is let through by the
    [authenticate] middleware, which hands the handler the id, username and
    displayName of the stored user that logged in, at every clock before
    the expiry, one day after the login; from the expiry on, every route
    behind the middleware answers 401 "Invalid token." and leaves the
    database as it is. *)
Theorem login_token_authenticates now req db c :
  cookie (login now req db) = Some c →
  ∃ uid u,
    db_users db !! uid = Some u
    ∧ let payload :=
        Claims.mk uid (User.username u) (User.displayName u)
                  (now `div` 1000) (now `div` 1000 + 86400)%Z in
      ∀ now' b,
        let req' := mkRequest (Some (cookie_value c)) b in
        ((now' `div` 1000 < now `div` 1000 + 86400)%Z →
         authenticate now' req' = inr payload)
        ∧ ((now `div` 1000 + 86400 ≤ now' `div` 1000)%Z →
           ∀ handler db',
             authenticated now' handler req' db'
             = (db', reply 401 "Invalid token.")).
Proof.
  unfold login. intros Hcookie.
  destruct (Body.username (body req)) as [s|] eqn:Es; [|done].
  destruct (User_findOne (Some s) (db_users db)) as [[uid u]|] eqn:Hfind;
    [|done].
  apply User_findOne_Some in Hfind as [Hu _].
  destruct (Body.password (body req)) as [password|]; [|done].
  destruct (bcrypt_compare password (User.password u)); [|done].
  simpl in Hcookie. unfold jwt_sign in Hcookie.
  destruct usable_secret as [secret|] eqn:Hsec; [|done].
  simpl in Hcookie. injection Hcookie as <-.
  exists uid, u. split; [done|]. cbv zeta. intros now' b. split.
  - intros Hlt. apply authenticate_inr. exists secret. by repeat split.
  - intros Hge handler db'. unfold authenticated, authenticate. simpl.
    unfold jwt_verify. rewrite Hsec.
    rewrite bool_decide_eq_true_2 by done. simpl.
    by rewrite bool_decide_eq_true_2 by (simpl; lia).
Qed.

(** X9: a request the middleware lets through at some clock is let through,
    with the same identity, at every earlier clock: a token only goes from
    valid to expired, and nothing checks that the clock has reached its
    [iat]. *)
Theorem authenticate_earlier now now' req user :
  authenticate now' req = inr user →
  (now ≤ now')%Z →
  authenticate now req = inr user.
Proof.
  rewrite !authenticate_inr. intros (secret & Hsec & Htok & Hexp) Hle.
  exists secret. do 2 (split; [done|]).
  assert (now `div` 1000 ≤ now' `div` 1000)%Z by (apply Z.div_le_mono; lia).
  lia.
Qed.

(** X10: POST /api/auth/verify and the middleware accept the same requests:
    when [authenticate] lets a request through, [verify] answers 200 with
    the id, username and displayName the handler would be given, and when
    [authenticate] refuses, [verify] answers 401. *)
Theorem verify_agrees_with_authenticate now req :
  (∀ user, authenticate now req = inr user →
           verify now req
           = mkResponse 200
               (Identity (Claims.id user) (Claims.username user)
                         (Claims.displayName user)) None)
  ∧ (∀ res, authenticate now req = inl res → status (verify now req) = 401).
Proof.
  unfold authenticate, verify. split.
  - intros user. destruct (no_token (authToken req)); [done|].
    destruct (authToken req ≫= jwt_verify now); [|done]. by intros [= ->].
  - intros res. destruct (no_token (authToken req)); [done|].
    by destruct (authToken req ≫= jwt_verify now).
Qed.

(** X11: with JWT_SECRET unset or empty no login succeeds: a login with
    the username of a stored user and a password matching its hash is
    answered 500 "Error logging in.", and no login is answered 200. *)
Theorem no_secret_no_login now req db :
  usable_secret = None →
  status (login now req db) ≠ 200
  ∧ (∀ uid u password,
       User_findOne (Body.username (body req)) (db_users db) = Some (uid, u) →
       Body.password (body req) = Some password →
       bcrypt_compare password (User.password u) = true →
       login now req db = reply 500 "Error logging in.").
Proof.
  intros Hsec. unfold login, jwt_sign. rewrite Hsec. split.
  - by branches.
  - intros uid u password -> -> ->. done.
Qed.

(** ** Membership *)

Lemma findById_insert {A : Type} (coll : gmap ObjectId A) id gid doc doc' :
  findById coll id = Document gid doc →
  findById (<[gid := doc']> coll) id = Document gid doc'.
Proof.
  unfold findById. destruct id as [s|]; [|done].
  destruct (castObjectId s) as [oid|]; [|done].
  destruct (coll !! oid) eqn:E; [|done]. intros [= <- <-].
  by rewrite lookup_insert_eq.
Qed.

Lemma filter_app_last {A : Type} (P : A → Prop) `{∀ x, Decision (P x)}
    (l : list A) (x : A) :
  Forall P l → ¬ P x → filter P (l ++ [x]) = l.
Proof.
  intros Hl Hx. rewrite filter_app.
  rewrite (filter_cons_False P x []) by done.
  rewrite filter_nil, app_nil_r.
  induction Hl as [|y l Hy Hl IH]; [done|].
  by rewrite filter_cons_True, IH.
Qed.

(** What a Join does once the caller is found not to be a member. *)
Lemma join_not_member now req db user gid g :
  authenticate now req = inr user →
  truthy (Body.groupId (body req)) = true →
  findById (db_groups db) (Body.groupId (body req)) = Document gid g →
  Claims.id user ∉ Group.members g →
  let db1 :=
    save_Group gid
      (Group.set_members (Group.members g ++ [Claims.id user]) g) db in
  authenticated now join req db
  = match db_users db !! Claims.id user with
    | None => (db1, reply 500 "Error joining group.")
    | Some u =>
        (save_User (Claims.id user)
           (User.set_groups (User.groups u ++ [gid]) u) db1,
         reply 200 "User joined the group successfully.")
    end.
Proof.
  intros Hauth Ht Hfind Hmem. unfold authenticated. rewrite Hauth.
  unfold join. rewrite Ht, Hfind. simpl. unfold includes.
  by rewrite bool_decide_eq_false_2.
Qed.

(** X12: a Join by an authenticated caller who is stored and not yet in the
    [members] of the group it names appends the caller's id to the group's
    [members] and the group's id to the caller's [groups], changes nothing
    else, and is answered 200. *)
Theorem join_effect now req db user gid g u :
  authenticate now req = inr user →
  truthy (Body.groupId (body req)) = true →
  findById (db_groups db) (Body.groupId (body req)) = Document gid g →
  Claims.id user ∉ Group.members g →
  db_users db !! Claims.id user = Some u →
  let g' :=
    Group.mk (Group.name g) (Group.description g) (Group.photoUrl g)
      (Group.posts g) (Group.members g ++ [Claims.id user])
      (Group.admins g) in
  let u' :=
    User.mk (User.displayName u) (User.username u) (User.password u)
      (User.groups u ++ [gid]) (User.board_groups u) (User.site_admin u) in
  authenticated now join req db
  = (mkDB (<[Claims.id user := u']> (db_users db))
          (<[gid := g']> (db_groups db))
          (db_posts db),
     reply 200 "User joined the group successfully.").
Proof.
  intros Hauth Ht Hfind Hmem Hu. simpl.
  rewrite (join_not_member now req db user gid g) by done.
  by rewrite Hu.
Qed.

(** X13: Join followed by Leave, with the group id given as the ObjectId
    prints it, brings every document back to the schema fields it had: the
    group's [members], the caller's [groups] and everything else are as
    before the Join, when the caller was not a member and did not have the
    group in [groups]. (The version key mongoose keeps beside the schema
    fields is bumped by both saves; it is not part of the documents here.) *)
Theorem join_then_leave_restores now now' req db user (s : string) g u :
  authenticate now req = inr user →
  authenticate now' req = inr user →
  Body.groupId (body req) = Some s →
  s ≠ "" →
  castObjectId s = Some s →
  db_groups db !! s = Some g →
  Claims.id user ∉ Group.members g →
  db_users db !! Claims.id user = Some u →
  s ∉ User.groups u →
  let joined := authenticated now join req db in
  joined.2 = reply 200 "User joined the group successfully."
  ∧ authenticated now' leave req joined.1
    = (db, reply 200 "User left the group successfully.").
Proof.
  intros Hauth Hauth' Hid Hs Hcast Hg Hmem Hu Hgroups joined.
  assert (findById (db_groups db) (Body.groupId (body req)) = Document s g)
    as Hfind by (by rewrite Hid; simpl; rewrite Hcast, Hg).
  assert (truthy (Body.groupId (body req)) = true) as Ht
    by (rewrite Hid; by apply truthy_Some).
  subst joined.
  rewrite (join_not_member now req db user s g) by done.
  rewrite Hu. simpl. split; [done|].
  unfold authenticated. rewrite Hauth'. unfold leave. rewrite Ht. simpl.
  rewrite (findById_insert _ _ s g) by done. simpl.
  unfold includes. rewrite bool_decide_eq_true_2
    by (apply elem_of_app; right; apply list_elem_of_here).
  simpl. unfold User_findById. simpl. rewrite lookup_insert_eq.
  unfold save_User, save_Group, with_users, with_groups. simpl.
  rewrite !insert_insert_eq, Hid.
  rewrite (filter_app_last (λ memberId, memberId ≠ Claims.id user));
    [|apply Forall_forall; by intros x Hx ->|by intros ?].
  rewrite (filter_app_last (λ gId, Some gId ≠ Some s));
    [|apply Forall_forall; by intros x Hx [= ->]|by intros ?].
  f_equal. destruct db as [us gs ps], u, g. simpl in *.
  unfold User.set_groups, Group.set_members. simpl.
  by rewrite !insert_id.
Qed.

(** The groups and posts after a Leave by a member, whether or not the
    caller's user document is found. *)
Lemma leave_member_groups now req db user gid g :
  authenticate now req = inr user →
  truthy (Body.groupId (body req)) = true →
  findById (db_groups db) (Body.groupId (body req)) = Document gid g →
  Claims.id user ∈ Group.members g →
  db_groups (authenticated now leave req db).1
  = <[gid := Group.set_members
               (filter (λ memberId, memberId ≠ Claims.id user)
                       (Group.members g)) g]> (db_groups db)
  ∧ db_posts (authenticated now leave req db).1 = db_posts db.
Proof.
  intros Hauth Ht Hfind Hmem.
  unfold authenticated. rewrite Hauth. unfold leave.
  rewrite Ht, Hfind. simpl. unfold includes.
  rewrite (bool_decide_eq_true_2 _ Hmem). simpl.
  by destruct (User_findById _ _).
Qed.

(** X14: after a Leave that took the caller out of [members], the same
    Leave again is answered 400 "User is not a member of this group." and
    changes nothing. *)
Theorem leave_twice_refused now now' req db user gid g :
  authenticate now req = inr user →
  authenticate now' req = inr user →
  truthy (Body.groupId (body req)) = true →
  findById (db_groups db) (Body.groupId (body req)) = Document gid g →
  Claims.id user ∈ Group.members g →
  let left := authenticated now leave req db in
  authenticated now' leave req left.1
  = (left.1, reply 400 "User is not a member of this group.").
Proof.
  intros Hauth Hauth' Ht Hfind Hmem left.
  destruct (leave_member_groups now req db user gid g) as [Hgroups _];
    [done..|].
  fold left in Hgroups. clearbody left.
  unfold authenticated. rewrite Hauth'. unfold leave. rewrite Ht. simpl.
  rewrite Hgroups, (findById_insert _ _ gid g) by done. simpl.
  unfold includes. rewrite bool_decide_eq_false_2; [done|].
  intros [Hne _]%list_elem_of_filter. by apply Hne.
Qed.

(** X15: the two writes of Join and of Create are not undone when the
    second cannot be made: when no user document is stored under the
    caller's id, a Join still adds the caller to the group's [members] and
    a Create still stores the group, and both are answered 500. *)
Theorem missing_user_partial_write now oid req db user :
  authenticate now req = inr user →
  db_users db !! Claims.id user = None →
  (∀ gid g,
     truthy (Body.groupId (body req)) = true →
     findById (db_groups db) (Body.groupId (body req)) = Document gid g →
     Claims.id user ∉ Group.members g →
     authenticated now join req db
     = (mkDB (db_users db)
          (<[gid := Group.mk (Group.name g) (Group.description g)
                      (Group.photoUrl g) (Group.posts g)
                      (Group.members g ++ [Claims.id user])
                      (Group.admins g)]> (db_groups db))
          (db_posts db),
        reply 500 "Error joining group."))
  ∧ (∀ name description,
       Body.name (body req) = Some name → name ≠ "" →
       Body.description (body req) = Some description → description ≠ "" →
       db_groups db !! oid = None →
       authenticated now (create_group oid) req db
       = (mkDB (db_users db)
            (<[oid := Group.mk name description (Body.photoUrl (body req))
                        [] [Claims.id user] [Claims.id user]]>
               (db_groups db))
            (db_posts db),
          reply 500 "Error creating group.")).
Proof.
  intros Hauth Hu. split.
  - intros gid g Ht Hfind Hmem.
    rewrite (join_not_member now req db user gid g) by done.
    by rewrite Hu.
  - intros name description Hn Hn' Hd Hd' Hfresh.
    unfold authenticated. rewrite Hauth. unfold create_group.
    rewrite Hn, Hd, !truthy_Some by done. simpl.
    unfold new_Group. rewrite !required_Some by done. simpl.
    rewrite Hfresh. simpl. unfold User_findById. simpl. by rewrite Hu.
Qed.

(** ** Posting *)

(** What [create_post] does for an admin of the group when the post passes
    the schema. *)
Lemma create_post_success now oid req db user (s n : string) e d gid g :
  authenticate now req = inr user →
  Body.group (body req) = Some s → s ≠ "" →
  Body.postName (body req) = Some n → n ≠ "" →
  Body.isEvent (body req) = Some e →
  (e = true → truthy (Body.date (body req)) = true
              ∧ truthy (Body.location (body req)) = true) →
  findById (db_groups db) (Some s) = Document gid g →
  Claims.id user ∈ Group.admins g →
  cast_date_path (Body.date (body req)) = Some d →
  Claims.username user ≠ "" →
  db_posts db !! oid = None →
  let post :=
    Post.mk n (Body.description (body req)) gid e d
      (Body.location (body req)) (Body.photoUrl (body req))
      (Claims.username user) now in
  let g' :=
    Group.mk (Group.name g) (Group.description g) (Group.photoUrl g)
      (Group.posts g ++ [oid]) (Group.members g) (Group.admins g) in
  authenticated now (create_post now oid) req db
  = (mkDB (db_users db) (<[gid := g']> (db_groups db))
          (<[oid := post]> (db_posts db)),
     mkResponse 201 (MessagePost "Post created successfully." oid post) None).
Proof.
  intros Hauth Hg Hs Hn Hn' He Hev Hfind Hadm Hd Hname Hfresh.
  unfold authenticated. rewrite Hauth. unfold create_post.
  pose proof (findById_cast _ _ _ _ Hfind) as Hcast. simpl in Hcast.
  rewrite Hg, Hfind, Hn, He, !truthy_Some by done.
  change (truthyb (Some e)) with e.
  assert (e && (negb (truthy (Body.date (body req)))
                || negb (truthy (Body.location (body req)))) = false) as ->.
  { destruct e; [|done]. by destruct Hev as [-> ->]. }
  unfold includes. rewrite (bool_decide_eq_true_2 _ Hadm). simpl.
  unfold new_Post. rewrite !required_Some by done. simpl.
  rewrite Hcast. simpl. rewrite Hd. simpl. by rewrite Hfresh.
Qed.

(** X16: a post by an admin of the group, with its fields present and
    accepted by the schema, is stored with the username of the token, the
    clock as [creationDate] and the cast group id; its id is appended to
    the group's [posts]; nothing else changes, and the answer is 201 with
    the post. *)
Theorem create_post_effect now oid req db user (s n : string) e d gid g :
  authenticate now req = inr user →
  Body.group (body req) = Some s → s ≠ "" →
  Body.postName (body req) = Some n → n ≠ "" →
  Body.isEvent (body req) = Some e →
  (e = true → truthy (Body.date (body req)) = true
              ∧ truthy (Body.location (body req)) = true) →
  findById (db_groups db) (Some s) = Document gid g →
  Claims.id user ∈ Group.admins g →
  cast_date_path (Body.date (body req)) = Some d →
  Claims.username user ≠ "" →
  db_posts db !! oid = None →
  let post :=
    Post.mk n (Body.description (body req)) gid e d
      (Body.location (body req)) (Body.photoUrl (body req))
      (Claims.username user) now in
  let g' :=
    Group.mk (Group.name g) (Group.description g) (Group.photoUrl g)
      (Group.posts g ++ [oid]) (Group.members g) (Group.admins g) in
  authenticated now (create_post now oid) req db
  = (mkDB (db_users db) (<[gid := g']> (db_groups db))
          (<[oid := post]> (db_posts db)),
     mkResponse 201 (MessagePost "Post created successfully." oid post) None).
Proof. apply create_post_success. Qed.

(** X17: a post without [isEvent] passes the required-fields check, which
    asks for [date] and [location] only when [isEvent] is truthy, but the
    schema requires [isEvent]: an admin's request without it is answered 500
    "Error creating post." and stores nothing. *)
Theorem create_post_without_isEvent now oid req db user gid g :
  authenticate now req = inr user →
  truthy (Body.group (body req)) = true →
  truthy (Body.postName (body req)) = true →
  Body.isEvent (body req) = None →
  findById (db_groups db) (Body.group (body req)) = Document gid g →
  Claims.id user ∈ Group.admins g →
  authenticated now (create_post now oid) req db
  = (db, reply 500 "Error creating post.").
Proof.
  intros Hauth Hg Hn He Hfind Hadm.
  unfold authenticated. rewrite Hauth. unfold create_post.
  rewrite Hg, Hn, He, Hfind. simpl. unfold includes.
  rewrite (bool_decide_eq_true_2 _ Hadm). simpl.
  unfold new_Post.
  destruct (required (Body.postName (body req))); simpl; [|done].
  by destruct (Body.group (body req) ≫= castObjectId).
Qed.

(** X18: an admin who leaves a group keeps the right to post in it: after
    the Leave has taken the caller out of [members], a post by the same
    caller to the same group is stored and answered 201. *)
Theorem admin_posts_after_leaving now now' oid req req' db user
    (s n : string) e d gid g :
  authenticate now req = inr user →
  truthy (Body.groupId (body req)) = true →
  findById (db_groups db) (Body.groupId (body req)) = Document gid g →
  Claims.id user ∈ Group.members g →
  Claims.id user ∈ Group.admins g →
  authenticate now' req' = inr user →
  Body.group (body req') = Some s → s ≠ "" →
  Body.postName (body req') = Some n → n ≠ "" →
  Body.isEvent (body req') = Some e →
  (e = true → truthy (Body.date (body req')) = true
              ∧ truthy (Body.location (body req')) = true) →
  findById (db_groups db) (Some s) = Document gid g →
  cast_date_path (Body.date (body req')) = Some d →
  Claims.username user ≠ "" →
  db_posts db !! oid = None →
  let left := (authenticated now leave req db).1 in
  let post :=
    Post.mk n (Body.description (body req')) gid e d
      (Body.location (body req')) (Body.photoUrl (body req'))
      (Claims.username user) now' in
  let g' :=
    Group.mk (Group.name g) (Group.description g) (Group.photoUrl g)
      (Group.posts g ++ [oid])
      (filter (λ memberId, memberId ≠ Claims.id user) (Group.members g))
      (Group.admins g) in
  (Claims.id user ∉ Group.members g')
  ∧ authenticated now' (create_post now' oid) req' left
    = (mkDB (db_users left) (<[gid := g']> (db_groups left))
            (<[oid := post]> (db_posts left)),
       mkResponse 201
         (MessagePost "Post created successfully." oid post) None).
Proof.
  intros Hauth Ht Hfind Hmem Hadm Hauth' Hg Hs Hn Hn' He Hev Hfind' Hd Hname
    Hfresh left post g'.
  destruct (leave_member_groups now req db user gid g) as [Hgroups Hposts];
    [done..|].
  fold left in Hgroups, Hposts. clearbody left. split.
  { intros [Hne _]%list_elem_of_filter. by apply Hne. }
  apply (create_post_success now' oid req' left user s n e d gid
           (Group.set_members
              (filter (λ memberId, memberId ≠ Claims.id user)
                      (Group.members g)) g)); try done.
  - rewrite Hgroups. by apply (findById_insert _ _ gid g).
  - by rewrite Hposts.
Qed.

(** ** Registration and login *)

(** X19: a registration with its three fields present, a username no
    stored user has and a fresh ObjectId stores one new user: the given
    username and displayName, the bcrypt hash of the password (not the
    password), empty [groups] and [board_groups], [site_admin] false. The
    other users, the groups and the posts are as before; the answer is
    201. *)
Theorem register_effect salt oid req db (s d pw : string) :
  Body.username (body req) = Some s → s ≠ "" →
  Body.displayName (body req) = Some d → d ≠ "" →
  Body.password (body req) = Some pw → pw ≠ "" →
  db_users db !! oid = None →
  username_taken s (db_users db) = false →
  register salt oid req db
  = (mkDB (<[oid := User.mk d s (bcrypt_hash salt pw) [] [] false]>
             (db_users db))
          (db_groups db) (db_posts db),
     reply 201 "User registered successfully.").
Proof.
  intros Es Hs Ed Hd Ep Hp Hfresh Hfree.
  destruct (register_present salt oid req db s) as (d' & pw' & Ed' & Ep' & ->);
    [done|done|rewrite Ed; by apply truthy_Some
    |rewrite Ep; by apply truthy_Some|].
  rewrite Hfresh, Hfree, bool_decide_eq_false_2 by (by intros [? ?]).
  assert (d' = d) as -> by congruence. assert (pw' = pw) as -> by congruence.
  done.
Qed.

(** X20: registering and then logging in with the same username and
    password succeeds and issues a token for the new user, on a platform
    where [bcrypt.compare] accepts a password against its own hash and the
    secret is set. *)
Theorem register_then_login salt oid now req db (s d pw secret : string) :
  Body.username (body req) = Some s → s ≠ "" →
  Body.displayName (body req) = Some d → d ≠ "" →
  Body.password (body req) = Some pw → pw ≠ "" →
  db_users db !! oid = None →
  username_taken s (db_users db) = false →
  bcrypt_compare pw (bcrypt_hash salt pw) = true →
  usable_secret = Some secret →
  let registered := register salt oid req db in
  let payload :=
    Claims.mk oid s d (now `div` 1000) (now `div` 1000 + 86400)%Z in
  registered.2 = reply 201 "User registered successfully."
  ∧ login now req registered.1
    = mkResponse 200 (MessageDisplayName "Login successful." d)
        (Some (mkSetCookie (JwtSigned payload (hmac secret payload)) true
                 (bool_decide (NODE_ENV = Some "production")) 86400000)).
Proof.
  intros Es Hs Ed Hd Ep Hp Hfresh Hfree Hcmp Hsec registered payload.
  subst registered.
  destruct (register_present salt oid req db s) as (d' & pw' & Ed' & Ep' & ->);
    [done|done|rewrite Ed; by apply truthy_Some
    |rewrite Ep; by apply truthy_Some|].
  rewrite Hfresh, Hfree, bool_decide_eq_false_2 by (by intros [? ?]).
  simpl. split; [done|].
  assert (d' = d) as -> by congruence. assert (pw' = pw) as -> by congruence.
  set (u := User.mk d s (bcrypt_hash salt pw) [] [] false).
  assert (User_findOne (Some s) (<[oid := u]> (db_users db)) = Some (oid, u))
    as Hfind.
  { destruct (User_findOne (Some s) (<[oid := u]> (db_users db)))
      as [[j v]|] eqn:Hj.
    - apply User_findOne_Some in Hj as [Hv Hname].
      apply lookup_insert_Some in Hv as [[<- <-] | [_ Hv]]; [done|].
      assert (username_taken s (db_users db) = true)
        by (apply username_taken_true; eauto).
      congruence.
    - rewrite User_findOne_None in Hj.
      destruct (Hj oid u); [by rewrite lookup_insert_eq|done]. }
  unfold login. rewrite Es.
  match goal with
  | |- context [User_findOne (Some s) (db_users ?db1)] =>
      change (db_users db1) with (<[oid := u]> (db_users db))
  end.
  rewrite Hfind, Ep. simpl.
  rewrite Hcmp. simpl. unfold jwt_sign. by rewrite Hsec.
Qed.

(** ** Reading one's groups *)

Lemma populate_stored ids db :
  (∀ id, id ∈ ids → is_Some (db_groups db !! id)) →
  (populate ids db).*1 = ids.
Proof.
  unfold populate. induction ids as [|id ids IH]; intros Hall; [done|].
  simpl. destruct (Hall id) as [g Hg]; [apply list_elem_of_here|].
  rewrite Hg. simpl. f_equal. apply IH. intros x Hx. apply Hall.
  by apply list_elem_of_further.
Qed.

Lemma populate_lookup ids db id g :
  (id, g) ∈ populate ids db → db_groups db !! id = Some g.
Proof.
  unfold populate. rewrite list_elem_of_omap.
  intros (x & _ & Hx). apply fmap_Some in Hx as (g' & Hg & [= -> ->]). done.
Qed.

(** X21: in every state reached from the empty database, GET /api/user and
    GET /api/groups/user by an authenticated caller whose user document is
    stored answer 200 with one stored group for each id in the caller's
    [board_groups] and [groups], in the order of these lists: no id is
    dropped by [populate]. *)
Theorem get_user_populates_every_group cs now req user u :
  let db := run cs empty_db in
  authenticate now req = inr user →
  db_users db !! Claims.id user = Some u →
  ∃ board_groups groups,
    get_user now req db = inr (board_groups, groups)
    ∧ get_groups_user now req db = inr groups
    ∧ board_groups.*1 = User.board_groups u
    ∧ groups.*1 = User.groups u
    ∧ ∀ id g, (id, g) ∈ board_groups ++ groups →
              db_groups db !! id = Some g.
Proof.
  intros db Hauth Hu.
  assert (user_groups_stored db) as Hstored.
  { apply (run_change user_groups_stored); [apply change_user_groups_stored|].
    intros uid v gid Hv. unfold empty_db in Hv. simpl in Hv.
    by rewrite lookup_empty in Hv. }
  exists (populate (User.board_groups u) db), (populate (User.groups u) db).
  unfold get_user, get_groups_user, User_findById. rewrite Hauth, Hu.
  do 2 (split; [done|]). repeat split.
  - apply populate_stored. intros id Hid.
    eapply Hstored; [exact Hu|]. apply elem_of_app. by right.
  - apply populate_stored. intros id Hid.
    eapply Hstored; [exact Hu|]. apply elem_of_app. by left.
  - intros id g [Hin | Hin]%elem_of_app; by eapply populate_lookup.
Qed.

(** X22: GET /api/user answers 404 "User not found." to an authenticated
    caller under whose id no user is stored, and the refusal of the
    middleware to a caller it does not let through. *)
Theorem get_user_refusals now req db :
  (∀ user, authenticate now req = inr user →
           db_users db !! Claims.id user = None →
           get_user now req db = inl (reply 404 "User not found.")
           ∧ get_groups_user now req db
             = inl (reply 404 "User not found."))
  ∧ (∀ res, authenticate now req = inl res →
            get_user now req db = inl res
            ∧ get_groups_user now req db = inl res
            ∧ status res = 401).
Proof.
  unfold get_user, get_groups_user, User_findById. split.
  - intros user -> ->. done.
  - intros res Hres. rewrite Hres. do 2 (split; [done|]).
    unfold authenticate in Hres.
    destruct (no_token (authToken req)); [by injection Hres as <-|].
    destruct (authToken req ≫= jwt_verify now); [done|].
    by injection Hres as <-.
Qed.

End Coverage.

(** * Further scenarios on the platform [Demo] *)

Section CoverageScenarios.
Local Existing Instance Demo.platform.
Import Demo.

Ltac evaluated :=
  first [ vm_compute; reflexivity
        | discriminate
        | apply (bool_decide_unpack _); vm_compute; exact I
        | vm_compute; lia ].

(** bob, already a member, asks to join: 400 and the same database. *)
Lemma client_errors_change_nothing_witness :
  status (handle bob_joins db_club).2 = 400
  ∧ (handle bob_joins db_club).1 = db_club.
Proof.
  split; [vm_compute; reflexivity|].
  apply client_errors_change_nothing. vm_compute. lia.
Defined.

(** alice's login at clock 1000 ms and her token one day later. *)
Lemma login_token_authenticates_witness :
  ∃ uid u,
    db_users db_alice !! uid = Some u
    ∧ let payload :=
        Claims.mk uid (User.username u) (User.displayName u) 1 86401 in
      authenticate 86400999 (mkRequest (Some alice_token) Body.empty)
      = inr payload
      ∧ authenticated 86401000 (create_group club_id)
          (mkRequest (Some alice_token) (group_body "Book Club" "Readers"))
          db_alice
        = (db_alice, reply 401 "Invalid token.").
Proof.
  destruct (login_token_authenticates 1000
              (anonymous (login_body "alice" "pw")) db_alice
              (mkSetCookie alice_token true false 86400000))
    as (uid & u & Hu & Htoken); [vm_compute; reflexivity|].
  exists uid, u. split; [exact Hu|]. split.
  - apply (Htoken 86400999%Z Body.empty). vm_compute. reflexivity.
  - apply (Htoken 86401000%Z (group_body "Book Club" "Readers")).
    vm_compute. discriminate.
Defined.

(** bob's token, accepted at clock 5000 ms, is accepted at 2000 ms. *)
Lemma authenticate_earlier_witness :
  authenticate 2000 (with_token bob_token Body.empty) = inr bob_claims.
Proof.
  apply (authenticate_earlier 2000 5000); [vm_compute; reflexivity|lia].
Defined.

(** [verify] on alice's token and on a request without a cookie. *)
Lemma verify_agrees_with_authenticate_witness :
  verify 2000 (with_token alice_token Body.empty)
  = mkResponse 200 (Identity alice_id "alice" "Alice") None
  ∧ status (verify 2000 (anonymous Body.empty)) = 401.
Proof.
  split.
  - apply (proj1 (verify_agrees_with_authenticate 2000
                    (with_token alice_token Body.empty)) alice_claims).
    vm_compute; reflexivity.
  - apply (proj2 (verify_agrees_with_authenticate 2000
                    (anonymous Body.empty)) (reply 401 "Unauthorized.")).
    vm_compute; reflexivity.
Defined.

(** Without a secret alice cannot log in with her password. *)
Lemma no_secret_no_login_witness :
  login (H := platform_no_secret) 1000
    (anonymous (login_body "alice" "pw")) db_alice
  = reply 500 "Error logging in.".
Proof.
  destruct (no_secret_no_login (H := platform_no_secret) 1000
              (anonymous (login_body "alice" "pw")) db_alice)
    as [_ Hlogin]; [reflexivity|].
  apply (Hlogin alice_id (User.mk "Alice" "alice" "$2b$10$pw" [] [] false)
           "pw"); evaluated.
Defined.

(** bob joins the club alice created. *)
Lemma join_effect_witness :
  let req := with_token bob_token (groupId_body club_id) in
  let result := authenticated 3000 join req db_created in
  result.2 = reply 200 "User joined the group successfully."
  ∧ db_groups result.1 !! club_id = Some club
  ∧ (User.groups <$> db_users result.1 !! bob_id) = Some [club_id].
Proof.
  intros req result. subst result.
  rewrite (join_effect 3000 req db_created bob_claims club_id club_created bob)
    by evaluated.
  repeat split; vm_compute; reflexivity.
Defined.

(** bob joins the club and leaves it: the database is as before. *)
Lemma join_then_leave_restores_witness :
  let req := with_token bob_token (groupId_body club_id) in
  authenticated 4000 leave req (authenticated 3000 join req db_created).1
  = (db_created, reply 200 "User left the group successfully.").
Proof.
  intros req.
  apply (join_then_leave_restores 3000 4000 req db_created bob_claims club_id
           club_created bob); evaluated.
Defined.

(** bob leaves the club twice. *)
Lemma leave_twice_refused_witness :
  let req := with_token bob_token (groupId_body club_id) in
  let left := authenticated 4000 leave req db_club in
  left.2 = reply 200 "User left the group successfully."
  ∧ authenticated 5000 leave req left.1
    = (left.1, reply 400 "User is not a member of this group.").
Proof.
  intros req left. split; [vm_compute; reflexivity|].
  apply (leave_twice_refused 4000 5000 req db_club bob_claims club_id club);
    evaluated.
Defined.

(** carol, who holds a signed token and has no user document, joins the
    club and creates a group. *)
Lemma missing_user_partial_write_witness :
  let joining := with_token carol_token (groupId_body club_id) in
  let creating := with_token carol_token (group_body "Chess" "Players") in
  let joined := authenticated 3000 join joining db_club in
  let created := authenticated 3000 (create_group post_id) creating db_club in
  joined.2 = reply 500 "Error joining group."
  ∧ (Group.members <$> db_groups joined.1 !! club_id)
    = Some [alice_id; bob_id; carol_id]
  ∧ created.2 = reply 500 "Error creating group."
  ∧ db_groups created.1 !! post_id
    = Some (Group.mk "Chess" "Players" None [] [carol_id] [carol_id]).
Proof.
  intros joining creating joined created.
  destruct (missing_user_partial_write 3000 post_id joining db_club
              carol_claims) as [Hjoin _]; [evaluated..|].
  destruct (missing_user_partial_write 3000 post_id creating db_club
              carol_claims) as [_ Hcreate]; [evaluated..|].
  subst joined created.
  rewrite (Hjoin club_id club) by evaluated.
  rewrite (Hcreate "Chess" "Players") by evaluated.
  repeat split; vm_compute; reflexivity.
Defined.

(** alice posts an event to her club. *)
Lemma create_post_effect_witness :
  let req :=
    with_token alice_token
      (post_body club_id "Meetup" true (Some "1700000000000") (Some "Park")) in
  let result := authenticated 5000 (create_post 5000 post_id) req db_club in
  let post :=
    Post.mk "Meetup" None club_id true (Some 1700000000000%Z) (Some "Park")
            None "alice" 5000 in
  result.2 = mkResponse 201
               (MessagePost "Post created successfully." post_id post) None
  ∧ db_posts result.1 !! post_id = Some post
  ∧ (Group.posts <$> db_groups result.1 !! club_id) = Some [post_id].
Proof.
  intros req result post. subst result.
  rewrite (create_post_effect 5000 post_id req db_club alice_claims club_id
             "Meetup" true (Some 1700000000000%Z) club_id club);
    [|first [evaluated | intros _; split; reflexivity]..].
  repeat split; vm_compute; reflexivity.
Defined.

(** alice posts to her club without saying whether it is an event. *)
Lemma create_post_without_isEvent_witness :
  let req := with_token alice_token (post_body_no_isEvent club_id "Hello") in
  authenticated 5000 (create_post 5000 post_id) req db_club
  = (db_club, reply 500 "Error creating post.").
Proof.
  intros req.
  apply (create_post_without_isEvent 5000 post_id req db_club alice_claims
           club_id club); evaluated.
Defined.

(** alice leaves her club and then posts to it. *)
Lemma admin_posts_after_leaving_witness :
  let leaving := with_token alice_token (groupId_body club_id) in
  let posting :=
    with_token alice_token (post_body club_id "Farewell" false None None) in
  let left := (authenticated 4000 leave leaving db_club).1 in
  let result := authenticated 5000 (create_post 5000 post_id) posting left in
  (Group.members <$> db_groups left !! club_id) = Some [bob_id]
  ∧ status result.2 = 201
  ∧ (Post.username <$> db_posts result.1 !! post_id) = Some "alice".
Proof.
  intros leaving posting left result.
  split; [vm_compute; reflexivity|].
  destruct (admin_posts_after_leaving 4000 5000 post_id leaving posting
              db_club alice_claims club_id "Farewell" false None club_id club)
    as [_ Hpost]; [first [evaluated | discriminate]..|].
  subst result left. rewrite Hpost.
  repeat split; vm_compute; reflexivity.
Defined.

(** alice registers on the empty database. *)
Lemma register_effect_witness :
  register "salt" alice_id (anonymous (register_body "alice" "Alice" "pw"))
    empty_db
  = (mkDB {[ alice_id := User.mk "Alice" "alice" "$2b$10$pw" [] [] false ]}
          ∅ ∅,
     reply 201 "User registered successfully.").
Proof.
  rewrite (register_effect "salt" alice_id _ empty_db "alice" "Alice" "pw")
    by evaluated.
  reflexivity.
Defined.

(** alice registers and logs in with the same request body. *)
Lemma register_then_login_witness :
  let req := anonymous (register_body "alice" "Alice" "pw") in
  let registered := register "salt" alice_id req empty_db in
  registered.2 = reply 201 "User registered successfully."
  ∧ (cookie_value <$> cookie (login 1000 req registered.1))
    = Some alice_token.
Proof.
  intros req registered.
  destruct (register_then_login "salt" alice_id 1000 req empty_db
              "alice" "Alice" "pw" "s3cret") as [Hregistered Hlogin];
    [evaluated..|].
  split; [exact Hregistered|]. fold registered in Hlogin.
  rewrite Hlogin. reflexivity.
Defined.

(** alice reads her groups after creating the club; bob, after joining. *)
Lemma get_user_populates_every_group_witness :
  let cs := [register_alice; register_bob; alice_creates_club; bob_joins] in
  ∃ board_groups groups,
    get_user 5000 (with_token alice_token Body.empty) (run cs empty_db)
    = inr (board_groups, groups)
    ∧ board_groups.*1 = [club_id]
    ∧ groups.*1 = [club_id].
Proof.
  intros cs.
  destruct (get_user_populates_every_group cs 5000
              (with_token alice_token Body.empty) alice_claims
              (User.mk "Alice" "alice" "$2b$10$pw" [club_id] [club_id] false))
    as (bg & gs & Hget & _ & Hbg & Hgs & _); [evaluated..|].
  exists bg, gs. by repeat split.
Defined.

(** carol, without a user document, and a caller without a cookie read
    their groups. *)
Lemma get_user_refusals_witness :
  get_user 5000 (with_token carol_token Body.empty) db_club
  = inl (reply 404 "User not found.")
  ∧ get_groups_user 5000 (anonymous Body.empty) db_club
    = inl (reply 401 "Unauthorized.").
Proof.
  split.
  - apply (proj1 (get_user_refusals 5000 (with_token carol_token Body.empty)
                    db_club) carol_claims); evaluated.
  - apply (proj2 (get_user_refusals 5000 (anonymous Body.empty) db_club)
             (reply 401 "Unauthorized.")); evaluated.
Defined.

End CoverageScenarios.
